(** * appengine/upload.py: version calculation and deployment driver

    A shallow embedding of [upload.py].  The script talks to the outside
    world only through child processes ([subprocess.check_output] for
    git queries, [subprocess.call] for the deploy tool), the current
    user name, the current directory and the command line.  Those are
    gathered in the class [Env]; the script itself is written in a small
    monad that threads the state of the outside world, records every
    observable action in a trace and propagates Python exceptions. *)

From Stdlib Require Import String Ascii List ZArith Lia Bool Arith.
From Stdlib Require Import DecimalString DecimalNat.
Import ListNotations.

Local Open Scope string_scope.
Local Open Scope list_scope.

Notation "s +++ t" := (String.append s t)
  (at level 60, right associativity).

(** ** Python 2 string primitives used by the script *)

Module Py.

(** Characters for which [str.isspace] holds on a byte string. *)
Definition isspace (c : ascii) : bool :=
  match nat_of_ascii c with
  | 9 | 10 | 11 | 12 | 13 | 32 => true
  | _ => false
  end.

(** [s.rstrip()]: trailing white space removed. *)
Fixpoint rstrip (s : string) : string :=
  match s with
  | EmptyString => EmptyString
  | String c s' =>
      match rstrip s' with
      | EmptyString => if isspace c then EmptyString else String c EmptyString
      | r => String c r
      end
  end.

(** Line boundaries of a byte string: line feed and carriage return. *)
Definition islinebreak (c : ascii) : bool :=
  match nat_of_ascii c with
  | 10 | 13 => true
  | _ => false
  end.

(** [s.splitlines()]: [cur] holds the characters of the line being read.
    A carriage return followed by a line feed is one boundary, and a last
    line without a boundary is kept when it is not empty. *)
Fixpoint splitlines_from (cur s : string) : list string :=
  match s with
  | EmptyString =>
      match cur with
      | EmptyString => []
      | _ => [cur]
      end
  | String c s' =>
      if Ascii.eqb c "010" then cur :: splitlines_from EmptyString s'
      else if Ascii.eqb c "013" then
        match s' with
        | String d s'' =>
            if Ascii.eqb d "010" then cur :: splitlines_from EmptyString s''
            else cur :: splitlines_from EmptyString s'
        | EmptyString => cur :: splitlines_from EmptyString s'
        end
      else splitlines_from (cur +++ String c EmptyString) s'
  end.

Definition splitlines (s : string) : list string :=
  splitlines_from EmptyString s.

(** [s[:n]]: the first [n] characters, all of [s] when it is shorter. *)
Fixpoint slice_to (n : nat) (s : string) : string :=
  match n, s with
  | S n', String c s' => String c (slice_to n' s')
  | _, _ => EmptyString
  end.

(** ['%s' % n] for a non-negative integer. *)
Definition str_of_int (n : nat) : string :=
  NilEmpty.string_of_uint (Nat.to_uint n).

(** Truth value of a string and of an optional string ([None] is false). *)
Definition truthy (s : string) : bool :=
  match s with
  | EmptyString => false
  | _ => true
  end.

Definition truthy_opt (o : option string) : bool :=
  match o with
  | Some s => truthy s
  | None => false
  end.

Definition hexdigit (n : nat) : ascii :=
  ascii_of_nat (if (n <? 10)%nat then 48 + n else 87 + n).

Definition newline : string := String "010" EmptyString.

Definition backslash : ascii := "092".
Definition dquote : ascii := "034".

Fixpoint mem_char (c : ascii) (s : string) : bool :=
  match s with
  | EmptyString => false
  | String d s' => Ascii.eqb c d || mem_char c s'
  end.

(** Body of [repr(s)] for a byte string, given the chosen quote. *)
Fixpoint repr_body (quote : ascii) (s : string) : string :=
  match s with
  | EmptyString => EmptyString
  | String c s' =>
      let n := nat_of_ascii c in
      (if Ascii.eqb c quote || Ascii.eqb c backslash
       then String backslash (String c EmptyString)
       else if Ascii.eqb c "009" then String backslash "t"
       else if Ascii.eqb c "010" then String backslash "n"
       else if Ascii.eqb c "013" then String backslash "r"
       else if ((n <? 32) || (127 <=? n))%nat then
         String backslash
           (String "x" (String (hexdigit (n / 16))
                          (String (hexdigit (n mod 16)) EmptyString)))
       else String c EmptyString) +++ repr_body quote s'
  end.

(** [repr(s)]: single quotes, unless [s] has a single quote and no
    double quote. *)
Definition repr (s : string) : string :=
  let quote : ascii :=
    if mem_char "'" s && negb (mem_char dquote s) then dquote else "'"%char in
  String quote (repr_body quote s +++ String quote EmptyString).

Fixpoint join (sep : string) (l : list string) : string :=
  match l with
  | [] => EmptyString
  | [x] => x
  | x :: l' => x +++ sep +++ join sep l'
  end.

(** [str(l)] for a list of strings. *)
Definition str_of_list (l : list string) : string :=
  "[" +++ join ", " (map repr l) +++ "]".

Fixpoint endswith_char (c : ascii) (s : string) : bool :=
  match s with
  | EmptyString => false
  | String d EmptyString => Ascii.eqb c d
  | String _ s' => endswith_char c s'
  end.

(** [os.path.join(a, b)] on a POSIX system. *)
Definition os_path_join (a b : string) : string :=
  match b with
  | String "/" _ => b
  | _ => if negb (truthy a) || endswith_char "/" a then a +++ b
         else a +++ "/" +++ b
  end.

End Py.

(** ** The outside world *)

(** What a finished child process leaves behind: its exit status (negative
    when it was killed by a signal) and what it wrote to standard output. *)
Record Outcome := mkOutcome { returncode : Z; output : string }.

(** Exceptions that leave the script.  [CalledProcessError] is raised by
    [subprocess.check_output] and has the attributes [returncode], [cmd]
    and [output]; [SystemExit] is raised by [sys.exit] and by
    [OptionParser.error]. *)
Inductive Exn :=
| CalledProcessError (returncode : Z) (cmd : list string) (output : string)
| SystemExit (code : Z).

Inductive Res (A : Type) :=
| Ok (a : A)
| Raise (e : Exn).
Arguments Ok {A} a.
Arguments Raise {A} e.

(** The values [OptionParser.parse_args] stores for [-v] and [-t]. *)
Record Options := mkOptions { verbose : bool; tag : option string }.

(** Observable actions, in the order the script performs them. *)
Inductive Event :=
| EvCheckOutput (argv : list string) (cwd : string) (o : Outcome)
| EvCall (argv : list string) (ret : Z)
| EvPrint (line : string)
| EvLogInfo (msg : string)
| EvParserError (msg : string).

(** The interface of the script to its surroundings.  A child process is
    taken to start and to end; the [OSError] of a program or directory
    that does not exist is not part of the model. *)
Class Env := {
  World : Type;
  (** run [argv] as a child process in directory [cwd] ([None]: the
      directory of the script's own process) and wait for it *)
  spawn : list string -> option string -> World -> Outcome * World;
  (** [getpass.getuser()] *)
  getuser : World -> string;
  (** [os.getcwd()] *)
  getcwd : World -> string;
  (** [parser.parse_args()] on the command line of the process: the
      options and the positional arguments, or the exit the parser takes
      by itself *)
  parse_args : World -> Res (Options * list string);
  (** [os.path.dirname(os.path.abspath(__file__))] *)
  module_dir : string;
  (** [os.path.expanduser] *)
  expanduser : string -> string
}.

(** ** The monad of the script *)

Section Script.

Context {E : Env}.

Definition M (A : Type) : Type := World -> Res A * World * list Event.

Definition ret {A} (a : A) : M A := fun w => (Ok a, w, []).

Definition bind {A B} (m : M A) (k : A -> M B) : M B :=
  fun w =>
    match m w with
    | (Ok a, w1, t1) =>
        match k a w1 with
        | (r, w2, t2) => (r, w2, t1 ++ t2)
        end
    | (Raise e, w1, t1) => (Raise e, w1, t1)
    end.

Definition raise {A} (e : Exn) : M A := fun w => (Raise e, w, []).

Definition emit (ev : Event) : M unit := fun w => (Ok tt, w, [ev]).

Definition ask {A} (f : World -> A) : M A := fun w => (Ok (f w), w, []).

Notation "x <- c1 ;; c2" := (bind c1 (fun x => c2))
  (at level 100, c1 at next level, right associativity).
Notation "' pat <- c1 ;; c2" :=
  (bind c1 (fun x => match x with pat => c2 end))
  (at level 100, pat pattern, c1 at next level, right associativity).
Notation "c1 ;; c2" := (bind c1 (fun _ => c2))
  (at level 100, right associativity).

(** The three components of a run. *)
Definition result {A} (m : M A) (w : World) : Res A := fst (fst (m w)).
Definition world_after {A} (m : M A) (w : World) : World := snd (fst (m w)).
Definition trace {A} (m : M A) (w : World) : list Event := snd (m w).

(** ** [subprocess] *)

(** [subprocess.check_output(argv, cwd=cwd)] *)
Definition check_output (argv : list string) (cwd : string) : M string :=
  fun w =>
    let (o, w') := spawn argv (Some cwd) w in
    ((if (returncode o =? 0)%Z then Ok (output o)
      else Raise (CalledProcessError (returncode o) argv (output o))),
     w', [EvCheckOutput argv cwd o]).

(** [subprocess.call(argv)] *)
Definition call (argv : list string) : M Z :=
  fun w =>
    let (o, w') := spawn argv None w in
    (Ok (returncode o), w', [EvCall argv (returncode o)]).

(** ** The script *)

Definition SEE_ALL_DIR : string := Py.os_path_join module_dir "seeall".

Definition GO_APPENGINE : string := expanduser "~/src/go_appengine".

Definition git (cmd : list string) (cwd : string) : M string :=
  check_output ("git" :: cmd) cwd.

Definition log_format : string :=
  "--format=" +++ String Py.dquote ("%h" +++ String Py.dquote EmptyString).

Definition get_pseudo_revision (root remote : string) : M (nat * string) :=
  out <- git ["merge-base"; "HEAD"; remote] root ;;
  let mergebase := Py.rstrip out in
  out <- git ["log"; mergebase; log_format] root ;;
  let pseudo_rev := length (Py.splitlines out) in
  ret (pseudo_rev, mergebase).

(** Returns [true] if the tree is pristine relating to [mergebase].  The
    [or] of the source runs the second diff only when the first one
    printed nothing. *)
Definition is_pristine (root mergebase : string) : M bool :=
  out <- git ["rev-parse"; "HEAD"] root ;;
  let head := Py.rstrip out in
  if negb (String.eqb head mergebase) then ret false
  else
    d1 <- git ["diff"; "--ignore-submodules=none"; mergebase] root ;;
    if Py.truthy d1 then ret false
    else
      d2 <- git ["diff"; "--ignore-submodules"; "--cached"; mergebase]
              root ;;
      ret (negb (Py.truthy d2)).

Definition calculate_version (root : string) (tag : option string)
    : M string :=
  ' (pseudo_revision, mergebase) <-
      get_pseudo_revision root "origin/master" ;;
  pristine <- is_pristine root mergebase ;;
  let version :=
    Py.str_of_int pseudo_revision +++ "-" +++ Py.slice_to 7 mergebase in
  version <- (if negb pristine
              then user <- ask getuser ;;
                   ret (version +++ "-tainted-" +++ user)
              else ret version) ;;
  let version :=
    match tag with
    | Some t => if Py.truthy t then version +++ "-" +++ t else version
    | None => version
    end in
  ret version.

(** Returns the root of the checkout. *)
Definition checkout_root (cwd : string) : M string :=
  out <- git ["rev-parse"; "--show-toplevel"] cwd ;;
  ret (Py.rstrip out).

(** [parser.error(msg)]: the message goes to standard error and the
    process exits with status 2. *)
Definition parser_error {A} (msg : string) : M A :=
  emit (EvParserError msg) ;; raise (SystemExit 2).

(** [logging.info(msg)] after [logging.basicConfig(level=...)]: the root
    logger lets the record through at level DEBUG only. *)
Definition logging_info (debug : bool) (msg : string) : M unit :=
  if debug then emit (EvLogInfo msg) else ret tt.

(** [parser.parse_args()] *)
Definition optparse_parse_args : M (Options * list string) :=
  fun w => (parse_args w, w, []).

Definition main : M Z :=
  ' (options, args) <- optparse_parse_args ;;
  match args with
  | _ :: _ => parser_error ("Unknown arguments, " +++ Py.str_of_list args)
  | [] => ret tt
  end ;;
  cwd <- ask getcwd ;;
  root <- checkout_root cwd ;;
  logging_info (verbose options) ("Checkout root is " +++ root) ;;
  version <- calculate_version root (tag options) ;;
  emit (EvPrint version) ;;
  let cmd :=
    [Py.os_path_join GO_APPENGINE "appcfg.py"; "update"; SEE_ALL_DIR;
     "-V"; version] in
  r <- call cmd ;;
  if negb (r =? 0)%Z then ret r
  else
    let cmd :=
      [Py.os_path_join GO_APPENGINE "appcfg.py"; "set_default_version";
       SEE_ALL_DIR; "-V"; version] in
    call cmd.

(** [sys.exit(main())] *)
Definition script : M unit :=
  r <- main ;; raise (SystemExit r).

End Script.

(** ** What [git log] prints *)

Fixpoint has_linebreak (s : string) : bool :=
  match s with
  | EmptyString => false
  | String c s' => Py.islinebreak c || has_linebreak s'
  end.

(** One line of [git log --format="%h"]: the argument reaches git with
    its double quotes, so they are printed around the abbreviated id. *)
Definition log_line (h : string) : string :=
  String Py.dquote (h +++ String Py.dquote Py.newline).

Fixpoint log_text (hs : list string) : string :=
  match hs with
  | [] => EmptyString
  | h :: hs' => log_line h +++ log_text hs'
  end.

(** ** A scripted environment

    A fixture answers every child process from a table and never changes;
    it is what a test double of [subprocess] would be.  The home directory
    is [/home/dev] and the script lives in [/src/appengine]. *)

Record Fixture := mkFixture {
  fx_exec : list string -> option string -> Outcome;
  fx_user : string;
  fx_cwd : string;
  fx_args : Res (Options * list string)
}.

Definition FixtureEnv : Env := {|
  World := Fixture;
  spawn := fun argv cwd w => (fx_exec w argv cwd, w);
  getuser := fx_user;
  getcwd := fx_cwd;
  parse_args := fx_args;
  module_dir := "/src/appengine";
  expanduser := fun p =>
    match p with
    | String "~" rest => "/home/dev" +++ rest
    | _ => p
    end
|}.

Definition succeed (out : string) : Outcome := mkOutcome 0 out.
Definition fail (status : Z) : Outcome := mkOutcome status EmptyString.

Definition clean : string := EmptyString.

(** A checkout whose merge base with [origin/master] is [mergebase], with
    [ordinal] commits in its log, whose HEAD is [head] and whose two diffs
    print [unstaged] and [staged]; the deploy tool answers [update] and
    [set_default_version] with the two given statuses. *)
Definition checkout (mergebase : string) (ordinal : nat) (head : string)
    (unstaged staged : string) (update set_default : Z)
    (argv : list string) (cwd : option string) : Outcome :=
  let arg i := nth i argv EmptyString in
  if String.eqb (arg 0) "git" then
    if String.eqb (arg 1) "merge-base" then succeed (mergebase +++ Py.newline)
    else if String.eqb (arg 1) "log" then
      succeed (log_text (repeat "0123abc" ordinal))
    else if String.eqb (arg 1) "rev-parse" then
      if String.eqb (arg 2) "HEAD" then succeed (head +++ Py.newline)
      else succeed ("/src" +++ Py.newline)
    else if String.eqb (arg 1) "diff" then
      if String.eqb (arg 2) "--ignore-submodules=none" then succeed unstaged
      else succeed staged
    else fail 1
  else if String.eqb (arg 1) "update" then mkOutcome update EmptyString
  else if String.eqb (arg 1) "set_default_version" then
    mkOutcome set_default EmptyString
  else fail 127.

(** ** The commit graph behind [git log]

    [parents c] are the parents of commit [c]; [reaches c a] says that
    [a] is [c] or one of its ancestors.  [abbrev c] is what the
    placeholder [%h] prints for [c]. *)

Section History.

Context {E : Env}.
Variable parents : string -> list string.
Variable abbrev : string -> string.

Inductive reaches : string -> string -> Prop :=
| reaches_self c : reaches c c
| reaches_parent c p a : In p (parents c) -> reaches p a -> reaches c a.

(** What the script relies on from [git log <commit> --format=...]: when
    it succeeds it prints one line for each commit reachable from
    [<commit>], each commit once. *)
Definition git_log_lists_ancestors : Prop :=
  forall (w : World) (root c : string),
    let o := fst (spawn ["git"; "log"; c; log_format] (Some root) w) in
    returncode o = 0%Z ->
    exists L : list string,
      NoDup L /\
      (forall a, In a L <-> reaches c a) /\
      Forall (fun a => has_linebreak (abbrev a) = false) L /\
      output o = log_text (map abbrev L).

End History.

(** ** A repository with a history

    A history lists the commits of a repository, newest first, each with
    the ids of its parents.  On top of a fixture it answers [git log]:
    the commits reachable from the given one, newest first, and a failure
    with status 128 for an id that is not in the history.  Every other
    command is answered from the fixture's table. *)

Definition History := list (string * list string).

Fixpoint parents_in (h : History) (c : string) : list string :=
  match h with
  | [] => []
  | (id, ps) :: older => if String.eqb c id then ps else parents_in older c
  end.

Definition has_commit (h : History) (c : string) : bool :=
  existsb (String.eqb c) (map fst h).

(** The commits of [h] that are in [want] or reachable from it. *)
Fixpoint log_walk (h : History) (want : list string) : list string :=
  match h with
  | [] => []
  | (id, ps) :: older =>
      if existsb (String.eqb id) want then id :: log_walk older (ps ++ want)
      else log_walk older want
  end.

Definition history_log (h : History) (c : string) : option (list string) :=
  if has_commit h c then Some (log_walk h [c]) else None.

(** Ids are distinct, parents are older than their children, and an
    abbreviated id has no line break. *)
Fixpoint wf_history (h : History) : bool :=
  match h with
  | [] => true
  | (id, ps) :: older =>
      negb (has_commit older id) && forallb (has_commit older) ps &&
      negb (has_linebreak (Py.slice_to 7 id)) && wf_history older
  end.

Definition history_spawn (h : History) (argv : list string)
    (cwd : option string) (w : Fixture) : Outcome * Fixture :=
  match argv with
  | [a0; a1; c; _] =>
      if String.eqb a0 "git" && String.eqb a1 "log" then
        match history_log h c with
        | Some L => (succeed (log_text (map (Py.slice_to 7) L)), w)
        | None => (fail 128, w)
        end
      else (fx_exec w argv cwd, w)
  | _ => (fx_exec w argv cwd, w)
  end.

Definition HistoryEnv (h : History) : Env := {|
  World := Fixture;
  spawn := history_spawn h;
  getuser := fx_user;
  getcwd := fx_cwd;
  parse_args := fx_args;
  module_dir := "/src/appengine";
  expanduser := fun p => p
|}.

(** Two branches from [0a1b2c3d4e] and their merge [c0ffee1234]. *)
Definition diamond : History :=
  [("c0ffee1234", ["8c9d0e1f2a"; "4e5f6a7b8c"]);
   ("8c9d0e1f2a", ["0a1b2c3d4e"]);
   ("4e5f6a7b8c", ["0a1b2c3d4e"]);
   ("0a1b2c3d4e", [])].

(** ** Observations on traces *)

(** A git query whose subcommand is [name]. *)
Definition query_named (name : string) (ev : Event) : bool :=
  match ev with
  | EvCheckOutput argv _ _ =>
      String.eqb (nth 0 argv EmptyString) "git" &&
      String.eqb (nth 1 argv EmptyString) name
  | _ => false
  end.

Definition is_query (ev : Event) : bool :=
  match ev with
  | EvCheckOutput _ _ _ => true
  | _ => false
  end.

Definition is_call (ev : Event) : bool :=
  match ev with
  | EvCall _ _ => true
  | _ => false
  end.

(** A call of the deploy tool with the operation [action]. *)
Definition call_named (action : string) (ev : Event) : bool :=
  match ev with
  | EvCall argv _ => String.eqb (nth 1 argv EmptyString) action
  | _ => false
  end.

(** No event of a run of [m] satisfies [P]. *)
Definition never {E : Env} {A} (P : Event -> bool) (m : M A) : Prop :=
  forall w, existsb P (trace m w) = false.

(** The run [x] seen after the events [t] have taken place. *)
Definition after {E : Env} {A} (t : list Event)
    (x : Res A * World * list Event) : Res A * World * list Event :=
  (fst (fst x), snd (fst x), t ++ snd x).

(** The exception a run ended with, if any. *)
Definition raised {A} (r : Res A) : option Exn :=
  match r with
  | Raise e => Some e
  | Ok _ => None
  end.

(** A trace in which every query is a git command and a query that exits
    with a non-zero status is the last event, the run ending with the
    [CalledProcessError] made of its status, its command and its
    output. *)
Fixpoint fail_fast (r : option Exn) (t : list Event) : Prop :=
  match t with
  | [] => True
  | EvCheckOutput argv cwd o :: t' =>
      nth 0 argv EmptyString = "git" /\
      if (returncode o =? 0)%Z then fail_fast r t'
      else t' = [] /\
           r = Some (CalledProcessError (returncode o) argv (output o))
  | _ :: t' => fail_fast r t'
  end.

Definition FailFast {E : Env} {A} (m : M A) : Prop :=
  forall w, fail_fast (raised (result m w)) (trace m w).

(** ** Fixtures used as examples *)

Definition no_options : Res (Options * list string) :=
  Ok (mkOptions false None, []).

(** HEAD is the merge base and nothing is modified. *)
Definition pristine_checkout : Fixture :=
  mkFixture (checkout "abc" 42 "abc" clean clean 0 0) "alice"
    "/src/appengine" (Ok (mkOptions false (Some "rc1"), [])).

(** A local commit [feedc0de] on top of the merge base [deadbeef]. *)
Definition ahead_checkout : Fixture :=
  mkFixture (checkout "deadbeef" 7 "feedc0de" clean clean 0 0) "bob"
    "/src/appengine" (Ok (mkOptions false (Some "rc2"), [])).

(** The [update] step of the deploy tool fails with status 3. *)
Definition failing_update : Fixture :=
  mkFixture (checkout "deadbeef" 7 "deadbeef" clean clean 3 0) "bob"
    "/src/appengine" no_options.

(** HEAD is the merge base and one change is staged. *)
Definition staged_change : Fixture :=
  mkFixture (checkout "deadbeef" 7 "deadbeef" clean "diff --git a/x b/x" 0 0)
    "bob" "/src/appengine" no_options.

(** HEAD is the merge base and one file is modified but not staged. *)
Definition unstaged_change : Fixture :=
  mkFixture (checkout "deadbeef" 7 "deadbeef" "diff --git a/x b/x" clean 0 0)
    "bob" "/src/appengine" no_options.

(** One positional argument on the command line. *)
Definition stray_argument : Fixture :=
  mkFixture (checkout "deadbeef" 7 "deadbeef" clean clean 0 0) "bob"
    "/src/appengine" (Ok (mkOptions false None, ["staging"])).

(** Every child process fails with status 128; the script is started in
    [cwd]. *)
Definition no_repository (cwd : string) : Fixture :=
  mkFixture (fun _ _ => fail 128) "bob" cwd no_options.

(** A checkout whose merge base with [origin/master] is [mb]. *)
Definition checkout_at (mb : string) : Fixture :=
  mkFixture (checkout mb 0 mb clean clean 0 0) "bob" "/src" no_options.

(** The upstream reference does not exist: [git merge-base] fails with
    status 128, everything else is as in a pristine checkout. *)
Definition no_upstream : Fixture :=
  mkFixture
    (fun argv cwd =>
       if String.eqb (nth 1 argv EmptyString) "merge-base" then fail 128
       else checkout "deadbeef" 7 "deadbeef" clean clean 0 0 argv cwd)
    "bob" "/src/appengine" no_options.

(** ** Further observations *)

(** All characters of [s] are white space. *)
Fixpoint all_space (s : string) : bool :=
  match s with
  | EmptyString => true
  | String c s' => Py.isspace c && all_space s'
  end.

(** The last character of [s] is white space. *)
Fixpoint ends_with_space (s : string) : bool :=
  match s with
  | EmptyString => false
  | String c EmptyString => Py.isspace c
  | String _ s' => ends_with_space s'
  end.

Definition is_digit (c : ascii) : bool :=
  (48 <=? nat_of_ascii c)%nat && (nat_of_ascii c <=? 57)%nat.

Fixpoint all_digits (s : string) : bool :=
  match s with
  | EmptyString => true
  | String c s' => is_digit c && all_digits s'
  end.

Definition is_print (ev : Event) : bool :=
  match ev with
  | EvPrint _ => true
  | _ => false
  end.

Definition is_log (ev : Event) : bool :=
  match ev with
  | EvLogInfo _ => true
  | _ => false
  end.

(** A git query run in the directory [dir]. *)
Definition git_query_in (dir : string) (ev : Event) : bool :=
  match ev with
  | EvCheckOutput argv cwd _ =>
      String.eqb (nth 0 argv EmptyString) "git" && String.eqb cwd dir
  | _ => false
  end.

(** The diff of the index: [git diff --ignore-submodules ...]. *)
Definition staged_diff_query (ev : Event) : bool :=
  query_named "diff" ev &&
  match ev with
  | EvCheckOutput argv _ _ =>
      String.eqb (nth 2 argv EmptyString) "--ignore-submodules"
  | _ => false
  end.

(** The exception of a failed query. *)
Definition query_error (e : Exn) : bool :=
  match e with
  | CalledProcessError _ _ _ => true
  | SystemExit _ => false
  end.

(** Another clone, of another user, with a local commit on top of the
    merge base [4e5f6a7b8c]. *)
Definition second_clone : Fixture :=
  mkFixture (checkout "4e5f6a7b8c" 0 "feedc0de" clean clean 0 0) "alice"
    "/home/alice/src" no_options.

(** [git log] prints nothing although it succeeds. *)
Definition empty_log : Fixture :=
  mkFixture (checkout "deadbeef" 0 "deadbeef" clean clean 0 0) "bob"
    "/src/appengine" no_options.

(** The option parser leaves by itself, as for [--help]. *)
Definition help_requested : Fixture :=
  mkFixture (checkout "deadbeef" 7 "deadbeef" clean clean 0 0) "bob"
    "/src/appengine" (Raise (SystemExit 0)).

(** The script is started with [-v] in a subdirectory of the checkout. *)
Definition verbose_run : Fixture :=
  mkFixture (checkout "deadbeef" 7 "deadbeef" clean clean 0 0) "bob"
    "/src/appengine/seeall" (Ok (mkOptions true None, [])).

(** * Properties *)

(** ** The string primitives on examples *)

Example rstrip_output :
  Py.rstrip ("deadbeef  " +++ Py.newline) = "deadbeef".
Proof. reflexivity. Qed.

Example splitlines_crlf :
  Py.splitlines ("a" +++ String "013" Py.newline +++ "b" +++ Py.newline +++
                 Py.newline +++ "c") = ["a"; "b"; EmptyString; "c"].
Proof. reflexivity. Qed.

Example splitlines_empty : Py.splitlines EmptyString = [].
Proof. reflexivity. Qed.

Example slice_to_examples :
  Py.slice_to 7 "abcdef0123" = "abcdef0" /\ Py.slice_to 7 "abc" = "abc".
Proof. split; reflexivity. Qed.

Example str_of_list_example :
  Py.str_of_list ["staging"; "it's"] =
  "['staging', " +++ String Py.dquote ("it's" +++ String Py.dquote "]").
Proof. reflexivity. Qed.

Example os_path_join_examples :
  Py.os_path_join "/home/dev/src/go_appengine" "appcfg.py" =
    "/home/dev/src/go_appengine/appcfg.py" /\
  Py.os_path_join "/srv/" "seeall" = "/srv/seeall".
Proof. split; reflexivity. Qed.

(** ** Runs of the monad *)

Section Runs.

Context {E : Env}.

Lemma bind_ok {A B} (m : M A) (k : A -> M B) w a w1 t1 :
  m w = (Ok a, w1, t1) ->
  bind m k w = (fst (fst (k a w1)), snd (fst (k a w1)), t1 ++ snd (k a w1)).
Proof.
  intros H. unfold bind. rewrite H.
  destruct (k a w1) as [[r w2] t2]. reflexivity.
Qed.

Lemma bind_raise {A B} (m : M A) (k : A -> M B) w e w1 t1 :
  m w = (Raise e, w1, t1) -> bind m k w = (Raise e, w1, t1).
Proof. intros H. unfold bind. now rewrite H. Qed.

Lemma run_eta {A} (m : M A) w :
  m w = (result m w, world_after m w, trace m w).
Proof. unfold result, world_after, trace. now destruct (m w) as [[r w1] t]. Qed.

Lemma result_bind_ok {A B} (m : M A) (k : A -> M B) w a :
  result m w = Ok a ->
  result (bind m k) w = result (k a) (world_after m w).
Proof.
  intros H. unfold result at 1.
  rewrite (bind_ok m k w a (world_after m w) (trace m w)).
  - reflexivity.
  - rewrite <- H. apply run_eta.
Qed.

Lemma trace_bind_ok {A B} (m : M A) (k : A -> M B) w a :
  result m w = Ok a ->
  trace (bind m k) w = trace m w ++ trace (k a) (world_after m w).
Proof.
  intros H. unfold trace at 1.
  rewrite (bind_ok m k w a (world_after m w) (trace m w)).
  - reflexivity.
  - rewrite <- H. apply run_eta.
Qed.

Lemma world_bind_ok {A B} (m : M A) (k : A -> M B) w a :
  result m w = Ok a ->
  world_after (bind m k) w = world_after (k a) (world_after m w).
Proof.
  intros H. unfold world_after at 1.
  rewrite (bind_ok m k w a (world_after m w) (trace m w)).
  - reflexivity.
  - rewrite <- H. apply run_eta.
Qed.

Lemma result_bind_raise {A B} (m : M A) (k : A -> M B) w e :
  result m w = Raise e -> result (bind m k) w = Raise e.
Proof.
  intros H. unfold result at 1.
  rewrite (bind_raise m k w e (world_after m w) (trace m w)).
  - reflexivity.
  - rewrite <- H. apply run_eta.
Qed.

Lemma trace_bind_raise {A B} (m : M A) (k : A -> M B) w e :
  result m w = Raise e -> trace (bind m k) w = trace m w.
Proof.
  intros H. unfold trace at 1.
  rewrite (bind_raise m k w e (world_after m w) (trace m w)).
  - reflexivity.
  - rewrite <- H. apply run_eta.
Qed.

(** A git query either returns what the command printed or raises; in
    both cases it leaves one event. *)
Lemma git_result cmd cwd w :
  result (git cmd cwd) w =
  let o := fst (spawn ("git" :: cmd) (Some cwd) w) in
  if (returncode o =? 0)%Z then Ok (output o)
  else Raise (CalledProcessError (returncode o) ("git" :: cmd) (output o)).
Proof.
  unfold result, git, check_output.
  now destruct (spawn ("git" :: cmd) (Some cwd) w).
Qed.

Lemma git_trace cmd cwd w :
  trace (git cmd cwd) w =
  [EvCheckOutput ("git" :: cmd) cwd (fst (spawn ("git" :: cmd) (Some cwd) w))].
Proof.
  unfold trace, git, check_output.
  now destruct (spawn ("git" :: cmd) (Some cwd) w).
Qed.

Lemma git_world cmd cwd w :
  world_after (git cmd cwd) w = snd (spawn ("git" :: cmd) (Some cwd) w).
Proof.
  unfold world_after, git, check_output.
  now destruct (spawn ("git" :: cmd) (Some cwd) w).
Qed.

Lemma git_ok_or_raise cmd cwd w :
  (exists out, result (git cmd cwd) w = Ok out) \/
  (exists e, result (git cmd cwd) w = Raise e).
Proof.
  rewrite git_result. cbv zeta.
  destruct (returncode _ =? 0)%Z; eauto.
Qed.

Lemma truthy_false s : Py.truthy s = false <-> s = EmptyString.
Proof. destruct s; simpl; split; congruence. Qed.

(** ** [is_pristine] *)

(** C1: [is_pristine root mergebase] returns [True] exactly when
    [git rev-parse HEAD] yields [mergebase], the diff against [mergebase]
    taken with [--ignore-submodules=none] (submodule changes included)
    prints nothing, and the [--cached] diff taken with
    [--ignore-submodules] (submodule changes left out) prints nothing. *)
Theorem is_pristine_true_iff (root mergebase : string) (w : World) :
  let head_q := git ["rev-parse"; "HEAD"] root in
  let unstaged_q := git ["diff"; "--ignore-submodules=none"; mergebase] root in
  let staged_q :=
    git ["diff"; "--ignore-submodules"; "--cached"; mergebase] root in
  let w1 := world_after head_q w in
  let w2 := world_after unstaged_q w1 in
  result (is_pristine root mergebase) w = Ok true <->
  (exists out, result head_q w = Ok out /\ Py.rstrip out = mergebase) /\
  result unstaged_q w1 = Ok EmptyString /\
  result staged_q w2 = Ok EmptyString.
Proof.
  cbv zeta. unfold is_pristine.
  destruct (git_ok_or_raise ["rev-parse"; "HEAD"] root w) as [[out Hh]|[e Hh]].
  2:{ rewrite (result_bind_raise _ _ _ _ Hh). rewrite Hh.
      split; [discriminate|]. intros [[out' [H _]] _]. discriminate. }
  rewrite (result_bind_ok _ _ _ _ Hh), Hh.
  destruct (String.eqb (Py.rstrip out) mergebase) eqn:Heq; simpl negb; cbv iota.
  2:{ apply String.eqb_neq in Heq. unfold result at 1, ret; simpl.
      split; [discriminate|]. intros [[out' [H H']] _].
      injection H as <-. contradiction. }
  apply String.eqb_eq in Heq.
  set (w1 := world_after (git ["rev-parse"; "HEAD"] root) w).
  destruct (git_ok_or_raise ["diff"; "--ignore-submodules=none"; mergebase]
              root w1) as [[d1 H1]|[e H1]].
  2:{ rewrite (result_bind_raise _ _ _ _ H1), H1.
      split; [discriminate|]. intros [_ [H _]]. discriminate. }
  rewrite (result_bind_ok _ _ _ _ H1), H1.
  destruct (Py.truthy d1) eqn:Ht1.
  { unfold result at 1, ret; simpl. split; [discriminate|].
    intros [_ [H _]]. injection H as ->. discriminate. }
  apply truthy_false in Ht1. subst d1.
  set (w2 := world_after _ w1).
  destruct (git_ok_or_raise
              ["diff"; "--ignore-submodules"; "--cached"; mergebase] root w2)
    as [[d2 H2]|[e H2]].
  2:{ rewrite (result_bind_raise _ _ _ _ H2), H2.
      split; [discriminate|]. intros [_ [_ H]]. discriminate. }
  rewrite (result_bind_ok _ _ _ _ H2), H2.
  unfold result at 1, ret; simpl.
  destruct d2; simpl.
  - split; [|reflexivity]. intros _. repeat split; eauto.
  - split; [discriminate|]. intros [_ [_ H]]. discriminate.
Qed.

Lemma trace_bind {A B} (m : M A) (k : A -> M B) w :
  trace (bind m k) w =
  trace m w ++
  match result m w with
  | Ok a => trace (k a) (world_after m w)
  | Raise _ => []
  end.
Proof.
  destruct (result m w) as [a|e] eqn:H.
  - now apply trace_bind_ok.
  - rewrite app_nil_r. now apply (trace_bind_raise m k w e).
Qed.

Lemma never_bind {A B} P (m : M A) (k : A -> M B) :
  never P m -> (forall a, never P (k a)) -> never P (bind m k).
Proof.
  intros Hm Hk w. rewrite trace_bind, existsb_app, Hm.
  destruct (result m w); [apply Hk | reflexivity].
Qed.

Lemma never_ret {A} P (a : A) : never P (ret a).
Proof. intros w. reflexivity. Qed.

Lemma never_raise {A} P e : never P (@raise _ A e).
Proof. intros w. reflexivity. Qed.

Lemma never_ask {A} P (f : World -> A) : never P (ask f).
Proof. intros w. reflexivity. Qed.

Lemma never_git P cmd cwd :
  (forall o, P (EvCheckOutput ("git" :: cmd) cwd o) = false) ->
  never P (git cmd cwd).
Proof. intros H w. rewrite git_trace. simpl. now rewrite H. Qed.

Lemma never_emit P ev : P ev = false -> never P (emit ev).
Proof. intros H w. unfold trace, emit; simpl. now rewrite H. Qed.

(** C2: when [git rev-parse HEAD] yields something else than
    [mergebase], [is_pristine] returns [False] and its only action is that
    query: no [git diff] is run. *)
Theorem is_pristine_head_differs (root mergebase out : string) (w : World) :
  result (git ["rev-parse"; "HEAD"] root) w = Ok out ->
  Py.rstrip out <> mergebase ->
  result (is_pristine root mergebase) w = Ok false /\
  trace (is_pristine root mergebase) w =
    trace (git ["rev-parse"; "HEAD"] root) w /\
  existsb (query_named "diff") (trace (is_pristine root mergebase) w) = false.
Proof.
  intros Hh Hne. apply String.eqb_neq in Hne.
  assert (Ht : trace (is_pristine root mergebase) w =
               trace (git ["rev-parse"; "HEAD"] root) w).
  { unfold is_pristine. rewrite (trace_bind_ok _ _ _ _ Hh), Hne. simpl negb.
    cbv iota. unfold trace at 2, ret; simpl. apply app_nil_r. }
  split; [|split; [exact Ht|]].
  - unfold is_pristine. rewrite (result_bind_ok _ _ _ _ Hh), Hne. reflexivity.
  - rewrite Ht, git_trace. reflexivity.
Qed.

(** ** [calculate_version] *)

Lemma append_assoc (a b c : string) : (a +++ b) +++ c = a +++ b +++ c.
Proof. induction a as [|x a IH]; simpl; [reflexivity | now rewrite IH]. Qed.

Lemma append_empty_r (a : string) : a +++ EmptyString = a.
Proof. induction a as [|x a IH]; simpl; [reflexivity | now rewrite IH]. Qed.

Lemma prefix_append (a b : string) : String.prefix a (a +++ b) = true.
Proof.
  induction a as [|x a IH]; simpl.
  - now destruct b.
  - destruct (ascii_dec x x); [exact IH | contradiction].
Qed.

Lemma prefix_slice_to n s : String.prefix (Py.slice_to n s) s = true.
Proof.
  revert s. induction n as [|n IH]; intros [|c s]; simpl; try reflexivity.
  destruct (ascii_dec c c); [apply IH | contradiction].
Qed.

Lemma slice_to_short n s : String.length s <= n -> Py.slice_to n s = s.
Proof.
  revert s. induction n as [|n IH]; intros [|c s] H; simpl in *;
    try reflexivity; try lia.
  rewrite IH; [reflexivity | lia].
Qed.

Lemma slice_to_length n s :
  String.length (Py.slice_to n s) = Nat.min n (String.length s).
Proof.
  revert s. induction n as [|n IH]; intros [|c s]; simpl; try reflexivity.
  now rewrite IH.
Qed.

(** The version string in terms of what the two inspections returned. *)
Lemma calculate_version_result root tag w n mb p :
  let w1 := world_after (get_pseudo_revision root "origin/master") w in
  let w2 := world_after (is_pristine root mb) w1 in
  result (get_pseudo_revision root "origin/master") w = Ok (n, mb) ->
  result (is_pristine root mb) w1 = Ok p ->
  result (calculate_version root tag) w =
  Ok ((Py.str_of_int n +++ "-" +++ Py.slice_to 7 mb) +++
      (if p then EmptyString else "-tainted-" +++ getuser w2) +++
      match tag with
      | Some t => if Py.truthy t then "-" +++ t else EmptyString
      | None => EmptyString
      end).
Proof.
  intros w1 w2 Hrev Hpr. unfold calculate_version.
  rewrite (result_bind_ok _ _ _ _ Hrev). fold w1.
  rewrite (result_bind_ok _ _ _ _ Hpr). fold w2.
  destruct p; simpl negb; cbv iota.
  - unfold result, bind, ret; simpl.
    destruct tag as [t|]; simpl; [destruct (Py.truthy t)|];
      now rewrite ?append_empty_r, ?append_assoc.
  - unfold result, bind, ret, ask; simpl.
    destruct tag as [t|]; simpl; [destruct (Py.truthy t)|];
      now rewrite ?append_empty_r, ?append_assoc.
Qed.

(** C3: the version string starts with the ordinal, a dash and the first
    seven characters of the merge-base id; an id of fewer than seven
    characters is used whole, without padding.  On a pristine checkout
    with 42 commits, merge base [abc] and tag [rc1] the version is
    [42-abc-rc1]. *)
Theorem calculate_version_base root tag w n mb p :
  result (get_pseudo_revision root "origin/master") w = Ok (n, mb) ->
  result (is_pristine root mb)
    (world_after (get_pseudo_revision root "origin/master") w) = Ok p ->
  (exists v,
     result (calculate_version root tag) w = Ok v /\
     String.prefix (Py.str_of_int n +++ "-" +++ Py.slice_to 7 mb) v = true) /\
  String.prefix (Py.slice_to 7 mb) mb = true /\
  String.length (Py.slice_to 7 mb) = Nat.min 7 (String.length mb) /\
  (String.length mb < 7 -> Py.slice_to 7 mb = mb) /\
  result (calculate_version (E := FixtureEnv) "/src" (Some "rc1"))
    pristine_checkout = Ok "42-abc-rc1".
Proof.
  intros Hrev Hpr. repeat split.
  - eexists. split.
    + apply (calculate_version_result root tag w n mb p Hrev Hpr).
    + apply prefix_append.
  - apply prefix_slice_to.
  - apply slice_to_length.
  - intros H. apply slice_to_short. lia.
Qed.

(** C4: the taint suffix [-tainted-<user>] comes right after the base and
    only when the checkout is not pristine; the tag suffix [-<tag>] comes
    last and only for a tag that is neither absent nor empty.  With 7
    commits, merge base [deadbeef], a local commit, user [bob] and tag
    [rc2] the version is [7-deadbee-tainted-bob-rc2]. *)
Theorem calculate_version_suffixes root tag w n mb p :
  let w1 := world_after (get_pseudo_revision root "origin/master") w in
  let w2 := world_after (is_pristine root mb) w1 in
  result (get_pseudo_revision root "origin/master") w = Ok (n, mb) ->
  result (is_pristine root mb) w1 = Ok p ->
  let base := Py.str_of_int n +++ "-" +++ Py.slice_to 7 mb in
  let taint := if p then EmptyString else "-tainted-" +++ getuser w2 in
  let tag_suffix :=
    match tag with
    | Some t => if Py.truthy t then "-" +++ t else EmptyString
    | None => EmptyString
    end in
  result (calculate_version root tag) w = Ok (base +++ taint +++ tag_suffix) /\
  result (calculate_version (E := FixtureEnv) "/src" (Some "rc2"))
    ahead_checkout = Ok "7-deadbee-tainted-bob-rc2".
Proof.
  intros w1 w2 Hrev Hpr base taint tag_suffix. split.
  - apply (calculate_version_result root tag w n mb p Hrev Hpr).
  - reflexivity.
Qed.

Lemma never_is_pristine P root mb :
  (forall cmd cwd o,
     P (EvCheckOutput ("git" :: "rev-parse" :: cmd) cwd o) = false) ->
  (forall cmd cwd o,
     P (EvCheckOutput ("git" :: "diff" :: cmd) cwd o) = false) ->
  never P (is_pristine root mb).
Proof.
  intros Hr Hd. unfold is_pristine.
  apply never_bind; [now apply never_git|]. intros out.
  destruct (negb _); [apply never_ret|].
  apply never_bind; [now apply never_git|]. intros d1.
  destruct (Py.truthy d1); [apply never_ret|].
  apply never_bind; [now apply never_git|]. intros d2. apply never_ret.
Qed.

Lemma never_get_pseudo_revision P root remote :
  (forall cmd cwd o,
     P (EvCheckOutput ("git" :: "merge-base" :: cmd) cwd o) = false) ->
  (forall cmd cwd o, P (EvCheckOutput ("git" :: "log" :: cmd) cwd o) = false) ->
  never P (get_pseudo_revision root remote).
Proof.
  intros Hm Hl. unfold get_pseudo_revision.
  apply never_bind; [now apply never_git|]. intros out.
  apply never_bind; [now apply never_git|]. intros out'. apply never_ret.
Qed.

Lemma never_calculate_version P root tag :
  (forall argv cwd o, P (EvCheckOutput argv cwd o) = false) ->
  never P (calculate_version root tag).
Proof.
  intros H. unfold calculate_version.
  apply never_bind; [now apply never_get_pseudo_revision|]. intros [n mb].
  apply never_bind; [now apply never_is_pristine|]. intros p.
  apply never_bind; [|intros v; apply never_ret].
  destruct (negb p); [|apply never_ret].
  apply never_bind; [apply never_ask|]. intros u. apply never_ret.
Qed.

(** C10: whatever [root] and [tag] the caller passes, the first action of
    [calculate_version] is the query [git merge-base HEAD origin/master]
    in [root], and it is the only merge-base query of the run; the
    ordinal and the merge-base id that go into the version are those
    of [get_pseudo_revision root "origin/master"]. *)
Theorem calculate_version_upstream (root : string) (tag : option string)
    (w : World) :
  let q := ["git"; "merge-base"; "HEAD"; "origin/master"] in
  (exists rest,
     trace (calculate_version root tag) w =
       EvCheckOutput q root (fst (spawn q (Some root) w)) :: rest /\
     existsb (query_named "merge-base") rest = false) /\
  match result (calculate_version root tag) w with
  | Ok v =>
      exists n mb,
        result (get_pseudo_revision root "origin/master") w = Ok (n, mb) /\
        String.prefix (Py.str_of_int n +++ "-" +++ Py.slice_to 7 mb) v = true
  | Raise _ => True
  end.
Proof.
  cbv zeta. split.
  - unfold calculate_version at 1. rewrite trace_bind.
    unfold get_pseudo_revision at 1. rewrite trace_bind, git_trace.
    simpl app. eexists. split; [reflexivity|].
    rewrite existsb_app. apply orb_false_iff. split.
    + destruct (result (git _ root) w) as [out|e]; [|reflexivity].
      apply never_bind; [now apply never_git|]. intros o. apply never_ret.
    + destruct (result (get_pseudo_revision _ _) w) as [[n mb]|e];
        [|reflexivity].
      apply never_bind; [now apply never_is_pristine|]. intros p.
      apply never_bind; [|intros v; apply never_ret].
      destruct (negb p); [|apply never_ret].
      apply never_bind; [apply never_ask|]. intros u. apply never_ret.
  - destruct (result (get_pseudo_revision root "origin/master") w)
      as [[n mb]|e] eqn:Hrev.
    + destruct (result (is_pristine root mb)
                  (world_after (get_pseudo_revision root "origin/master") w))
        as [p|e] eqn:Hpr.
      * rewrite (calculate_version_result root tag w n mb p Hrev Hpr).
        exists n, mb. split; [reflexivity | apply prefix_append].
      * unfold calculate_version. rewrite (result_bind_ok _ _ _ _ Hrev).
        now rewrite (result_bind_raise _ _ _ _ Hpr).
    + unfold calculate_version. now rewrite (result_bind_raise _ _ _ _ Hrev).
Qed.

(** ** [main] *)

(** C6: with one or more positional arguments the script takes the error
    path of the option parser: the message starts with
    [Unknown arguments, ], the exit status is not zero, and no git query
    (indeed no child process at all) has been run. *)
Theorem main_rejects_positional (w : World) (options : Options)
    (arg : string) (args : list string) :
  parse_args w = Ok (options, arg :: args) ->
  (exists status,
     result script w = Raise (SystemExit status) /\ status <> 0%Z) /\
  (exists msg,
     trace script w = [EvParserError msg] /\
     String.prefix "Unknown arguments, " msg = true) /\
  existsb is_query (trace script w) = false /\
  existsb is_call (trace script w) = false.
Proof.
  intros H.
  assert (Hrun : script w =
                 (Raise (SystemExit 2), w,
                  [EvParserError
                     ("Unknown arguments, " +++
                      Py.str_of_list (arg :: args))])).
  { unfold script, main, bind, optparse_parse_args, parser_error, emit, raise.
    rewrite H. reflexivity. }
  unfold result, trace. rewrite Hrun. simpl fst; simpl snd.
  split; [exists 2%Z; split; [reflexivity | discriminate]|].
  split; [|split; reflexivity].
  eexists. split; [reflexivity|].
  exact (prefix_append "Unknown arguments, " (Py.str_of_list (arg :: args))).
Qed.

Lemma after_nil {A} (x : Res A * World * list Event) : after [] x = x.
Proof. now destruct x as [[r w] t]. Qed.

Lemma after_after {A} t1 t2 (x : Res A * World * list Event) :
  after t1 (after t2 x) = after (t1 ++ t2) x.
Proof. unfold after; simpl. now rewrite app_assoc. Qed.

Lemma bind_after {A B} (m : M A) (k : A -> M B) w a :
  result m w = Ok a ->
  bind m k w = after (trace m w) (k a (world_after m w)).
Proof.
  intros H. now rewrite (bind_ok m k w a (world_after m w) (trace m w))
    by (rewrite <- H; apply run_eta).
Qed.

Lemma bind_ret {A B} (a : A) (k : A -> M B) w : bind (ret a) k w = k a w.
Proof. unfold bind, ret. now destruct (k a w) as [[r w'] t]. Qed.

Lemma bind_ask {A B} (f : World -> A) (k : A -> M B) w :
  bind (ask f) k w = k (f w) w.
Proof. unfold bind, ask. now destruct (k (f w) w) as [[r w'] t]. Qed.

Lemma bind_emit {B} ev (k : unit -> M B) w :
  bind (emit ev) k w = after [ev] (k tt w).
Proof. unfold bind, emit, after. now destruct (k tt w) as [[r w'] t]. Qed.

Lemma bind_logging_info {B} debug msg (k : unit -> M B) w :
  bind (logging_info debug msg) k w =
  after (if debug then [EvLogInfo msg] else []) (k tt w).
Proof.
  unfold logging_info. destruct debug.
  - apply bind_emit.
  - now rewrite bind_ret, after_nil.
Qed.

Lemma bind_call {B} argv (k : Z -> M B) w :
  bind (call argv) k w =
  let o := spawn argv None w in
  after [EvCall argv (returncode (fst o))] (k (returncode (fst o)) (snd o)).
Proof.
  unfold bind, call, after. destruct (spawn argv None w) as [o w']. simpl.
  now destruct (k (returncode o) w') as [[r w2] t].
Qed.

Lemma bind_parse_args {B} (k : Options * list string -> M B) w x :
  parse_args w = Ok x -> bind optparse_parse_args k w = k x w.
Proof.
  intros H. unfold bind, optparse_parse_args. rewrite H.
  now destruct (k x w) as [[r w'] t].
Qed.

Lemma never_checkout_root P cwd :
  (forall argv cwd o, P (EvCheckOutput argv cwd o) = false) ->
  never P (checkout_root cwd).
Proof.
  intros H. unfold checkout_root.
  apply never_bind; [now apply never_git|]. intros out. apply never_ret.
Qed.

(** The run of [main] once the version has been computed. *)
Lemma main_run (w : World) (options : Options) (root version : string) :
  let w1 := world_after (checkout_root (getcwd w)) w in
  let w2 := world_after (calculate_version root (tag options)) w1 in
  let tool := Py.os_path_join GO_APPENGINE "appcfg.py" in
  let update := [tool; "update"; SEE_ALL_DIR; "-V"; version] in
  let set_default :=
    [tool; "set_default_version"; SEE_ALL_DIR; "-V"; version] in
  let u := spawn update None w2 in
  let s := spawn set_default None (snd u) in
  let before :=
    trace (checkout_root (getcwd w)) w ++
    (if verbose options then [EvLogInfo ("Checkout root is " +++ root)]
     else []) ++
    trace (calculate_version root (tag options)) w1 in
  parse_args w = Ok (options, []) ->
  result (checkout_root (getcwd w)) w = Ok root ->
  result (calculate_version root (tag options)) w1 = Ok version ->
  main w =
  if (returncode (fst u) =? 0)%Z
  then (Ok (returncode (fst s)), snd s,
        before ++ [EvPrint version; EvCall update (returncode (fst u));
                   EvCall set_default (returncode (fst s))])
  else (Ok (returncode (fst u)), snd u,
        before ++ [EvPrint version; EvCall update (returncode (fst u))]).
Proof.
  intros w1 w2 tool update set_default u s before Hargs Hroot Hver.
  unfold main.
  rewrite (bind_parse_args _ _ _ Hargs), bind_ret, bind_ask.
  rewrite (bind_after _ _ _ _ Hroot). fold w1.
  rewrite bind_logging_info, after_after.
  rewrite (bind_after _ _ _ _ Hver). fold w2.
  rewrite after_after, bind_emit, after_after, bind_call.
  cbv zeta. fold tool. fold update. fold u. rewrite after_after.
  destruct (returncode (fst u) =? 0)%Z eqn:Hz; cbn [negb]; cbv beta iota.
  - unfold call. fold set_default. subst s.
    destruct (spawn set_default None (snd u)) as [os ws].
    unfold after, before. cbn [fst snd]. now rewrite <- !app_assoc.
  - unfold ret, after, before. cbn [fst snd].
    now rewrite app_nil_r, <- !app_assoc.
Qed.

(** C5: once the version is computed, the deploy tool is run with
    [update], the directory [SEE_ALL_DIR] and the version.  A non-zero
    status of that step becomes the exit status of the script and
    [set_default_version] is not run; after a zero status
    [set_default_version] is run with the same directory and version and
    its status becomes the exit status. *)
Theorem deploy_steps (w : World) (options : Options) (root version : string) :
  let w1 := world_after (checkout_root (getcwd w)) w in
  let w2 := world_after (calculate_version root (tag options)) w1 in
  let tool := Py.os_path_join GO_APPENGINE "appcfg.py" in
  let update := [tool; "update"; SEE_ALL_DIR; "-V"; version] in
  let set_default :=
    [tool; "set_default_version"; SEE_ALL_DIR; "-V"; version] in
  let u := spawn update None w2 in
  let s := spawn set_default None (snd u) in
  parse_args w = Ok (options, []) ->
  result (checkout_root (getcwd w)) w = Ok root ->
  result (calculate_version root (tag options)) w1 = Ok version ->
  exists before,
    existsb is_call before = false /\
    if (returncode (fst u) =? 0)%Z
    then
      result script w = Raise (SystemExit (returncode (fst s))) /\
      trace script w =
        before ++ [EvPrint version; EvCall update 0;
                   EvCall set_default (returncode (fst s))]
    else
      result script w = Raise (SystemExit (returncode (fst u))) /\
      trace script w =
        before ++ [EvPrint version; EvCall update (returncode (fst u))] /\
      existsb (call_named "set_default_version") (trace script w) = false.
Proof.
  intros w1 w2 tool update set_default u s Hargs Hroot Hver.
  pose proof (main_run w options root version Hargs Hroot Hver) as Hmain.
  cbv zeta in Hmain. fold w1 in Hmain. fold w2 in Hmain. fold tool in Hmain.
  fold update in Hmain. fold set_default in Hmain. fold u in Hmain.
  fold s in Hmain.
  set (before := trace (checkout_root (getcwd w)) w ++
        (if verbose options then [EvLogInfo ("Checkout root is " +++ root)]
         else []) ++
        trace (calculate_version root (tag options)) w1) in *.
  assert (Hbefore : forall P,
            (forall argv cwd o, P (EvCheckOutput argv cwd o) = false) ->
            (forall msg, P (EvLogInfo msg) = false) ->
            existsb P before = false).
  { intros P Hq Hl. unfold before. rewrite !existsb_app.
    rewrite (never_checkout_root P _ Hq w).
    rewrite (never_calculate_version P _ _ Hq w1).
    destruct (verbose options); simpl; now rewrite ?Hl. }
  exists before. split; [now apply Hbefore|].
  unfold result, trace, script, bind. rewrite Hmain.
  destruct (returncode (fst u) =? 0)%Z eqn:Hz.
  - apply Z.eqb_eq in Hz. rewrite Hz. unfold raise. cbn [fst snd].
    now rewrite app_nil_r.
  - unfold raise. cbn [fst snd]. rewrite app_nil_r.
    split; [reflexivity|]. split; [reflexivity|].
    rewrite existsb_app, Hbefore by reflexivity. reflexivity.
Qed.

(** ** Failing queries *)

Lemma fail_fast_app r t1 t2 :
  fail_fast None t1 -> fail_fast r t2 -> fail_fast r (t1 ++ t2).
Proof.
  intros H1 H2. induction t1 as [|ev t1 IH]; [exact H2|].
  destruct ev as [argv cwd o| | | |]; simpl in *; auto.
  destruct H1 as [Hg H1]. split; [exact Hg|].
  destruct (returncode o =? 0)%Z; [auto|].
  destruct H1 as [_ H1]. discriminate.
Qed.

Lemma FailFast_bind {A B} (m : M A) (k : A -> M B) :
  FailFast m -> (forall a, FailFast (k a)) -> FailFast (bind m k).
Proof.
  intros Hm Hk w. specialize (Hm w).
  destruct (result m w) as [a|e] eqn:Hr.
  - rewrite (trace_bind_ok _ _ _ _ Hr), (result_bind_ok _ _ _ _ Hr).
    apply fail_fast_app; [exact Hm | apply Hk].
  - now rewrite (trace_bind_raise _ _ _ _ Hr), (result_bind_raise _ _ _ _ Hr).
Qed.

Lemma FailFast_silent {A} (m : M A) :
  (forall w, existsb is_query (trace m w) = false) -> FailFast m.
Proof.
  intros H w. specialize (H w). revert H.
  generalize (raised (result m w)). induction (trace m w) as [|ev t IH];
    intros r H; [exact I|].
  destruct ev; simpl in *; try discriminate; now apply IH.
Qed.

Lemma FailFast_git cmd cwd : FailFast (git cmd cwd).
Proof.
  intros w. rewrite git_trace, git_result. cbv zeta. simpl.
  split; [reflexivity|]. now destruct (returncode _ =? 0)%Z.
Qed.

Lemma FailFast_script : FailFast script.
Proof.
  unfold script. apply FailFast_bind;
    [|intros r; apply FailFast_silent; reflexivity].
  unfold main. apply FailFast_bind.
  { apply FailFast_silent. reflexivity. }
  intros [options args]. apply FailFast_bind.
  { destruct args; apply FailFast_silent; reflexivity. }
  intros _. apply FailFast_bind; [apply FailFast_silent; reflexivity|].
  intros cwd. apply FailFast_bind.
  { unfold checkout_root. apply FailFast_bind; [apply FailFast_git|].
    intros out. apply FailFast_silent. reflexivity. }
  intros root. apply FailFast_bind.
  { apply FailFast_silent. intros w. unfold logging_info.
    now destruct (verbose options). }
  intros _. apply FailFast_bind.
  { unfold calculate_version. apply FailFast_bind.
    { unfold get_pseudo_revision. apply FailFast_bind; [apply FailFast_git|].
      intros out. apply FailFast_bind; [apply FailFast_git|].
      intros out'. apply FailFast_silent. reflexivity. }
    intros [n mb]. apply FailFast_bind.
    { unfold is_pristine. apply FailFast_bind; [apply FailFast_git|].
      intros out. destruct (negb _); [apply FailFast_silent; reflexivity|].
      apply FailFast_bind; [apply FailFast_git|]. intros d1.
      destruct (Py.truthy d1); [apply FailFast_silent; reflexivity|].
      apply FailFast_bind; [apply FailFast_git|]. intros d2.
      apply FailFast_silent. reflexivity. }
    intros p. apply FailFast_bind;
      [|intros v; apply FailFast_silent; reflexivity].
    destruct (negb p); apply FailFast_silent; reflexivity. }
  intros version. apply FailFast_bind; [apply FailFast_silent; reflexivity|].
  intros _. cbv zeta. apply FailFast_silent. intros w.
  apply never_bind.
  - intros w'. unfold trace, call. now destruct (spawn _ None w').
  - intros r. destruct (negb _); [apply never_ret|].
    intros w'. unfold trace, call. now destruct (spawn _ None w').
Qed.

Lemma fail_fast_at r t1 argv cwd o t2 :
  fail_fast r (t1 ++ EvCheckOutput argv cwd o :: t2) ->
  returncode o <> 0%Z ->
  nth 0 argv EmptyString = "git" /\ t2 = [] /\
  r = Some (CalledProcessError (returncode o) argv (output o)).
Proof.
  intros H Hne. apply Z.eqb_neq in Hne.
  induction t1 as [|ev t1 IH]; simpl in H.
  - rewrite Hne in H. tauto.
  - destruct ev as [argv' cwd' o'| | | |]; auto.
    destruct H as [_ H]. destruct (returncode o' =? 0)%Z; [auto|].
    destruct H as [H _]. now destruct t1.
Qed.

(** C7 as the script has it: a git query that exits with a non-zero
    status is the last action of the run, which ends with the
    [CalledProcessError] of [subprocess.check_output] at top level; the
    exception carries the exit status, the command line and the output
    of the command.  Nothing is run again or instead. *)
Theorem failing_query_aborts (w : World) (t1 t2 : list Event)
    (argv : list string) (cwd : string) (o : Outcome) :
  trace script w = t1 ++ EvCheckOutput argv cwd o :: t2 ->
  returncode o <> 0%Z ->
  result script w =
    Raise (CalledProcessError (returncode o) argv (output o)) /\
  nth 0 argv EmptyString = "git" /\
  t2 = [].
Proof.
  intros Ht Hne. pose proof (FailFast_script w) as H. rewrite Ht in H.
  destruct (fail_fast_at _ _ _ _ _ _ H Hne) as [Hg [H2 Hr]].
  repeat split; try assumption.
  destruct (result script w); simpl in Hr; congruence.
Qed.

(** ** The ordinal *)

Lemma islinebreak_false c :
  Py.islinebreak c = false ->
  Ascii.eqb c "010" = false /\ Ascii.eqb c "013" = false.
Proof.
  destruct c as [[] [] [] [] [] [] [] []]; cbv; intros H;
    try discriminate H; split; reflexivity.
Qed.

Lemma splitlines_from_line cur l rest :
  has_linebreak l = false ->
  Py.splitlines_from cur (l +++ String "010" rest) =
  (cur +++ l) :: Py.splitlines_from EmptyString rest.
Proof.
  revert cur. induction l as [|c l IH]; intros cur H.
  - simpl. now rewrite append_empty_r.
  - simpl in H. apply orb_false_iff in H. destruct H as [Hc Hl].
    destruct (islinebreak_false c Hc) as [H10 H13].
    cbn [String.append Py.splitlines_from]. rewrite H10, H13.
    rewrite (IH _ Hl). now rewrite append_assoc.
Qed.

Lemma has_linebreak_quoted h :
  has_linebreak h = false ->
  has_linebreak (String Py.dquote (h +++ String Py.dquote EmptyString)) =
  false.
Proof.
  intros H. cbn [has_linebreak]. change (Py.islinebreak Py.dquote) with false.
  cbn [orb]. induction h as [|c h IH]; [reflexivity|].
  simpl in *. apply orb_false_iff in H. destruct H as [-> H]. now apply IH.
Qed.

Lemma log_line_split h rest :
  has_linebreak h = false ->
  Py.splitlines_from EmptyString (log_line h +++ rest) =
  String Py.dquote (h +++ String Py.dquote EmptyString)
    :: Py.splitlines_from EmptyString rest.
Proof.
  intros H.
  pose proof (splitlines_from_line EmptyString _ rest
                (has_linebreak_quoted h H)) as Hs.
  cbn [String.append] in Hs. rewrite append_assoc in Hs.
  unfold log_line, Py.newline. cbn [String.append].
  rewrite append_assoc. exact Hs.
Qed.

(** A log of well-formed lines has as many lines as commits. *)
Lemma splitlines_log_text hs :
  Forall (fun h => has_linebreak h = false) hs ->
  length (Py.splitlines (log_text hs)) = length hs.
Proof.
  unfold Py.splitlines. induction 1 as [|h hs Hh _ IH]; [reflexivity|].
  cbn [log_text]. rewrite (log_line_split h _ Hh). simpl. now rewrite IH.
Qed.

Lemma reaches_trans parents a b c :
  reaches parents a b -> reaches parents b c -> reaches parents a c.
Proof.
  induction 1 as [|x p y Hp _ IH]; [auto|].
  intros H. eapply reaches_parent; eauto.
Qed.

Section Ordinal.

Variable parents : string -> list string.
Variable abbrev : string -> string.
Hypothesis git_log : git_log_lists_ancestors parents abbrev.

(** The ordinal is the number of commits reachable from the merge base. *)
Lemma get_pseudo_revision_counts root remote w n mb :
  result (get_pseudo_revision root remote) w = Ok (n, mb) ->
  exists L, NoDup L /\ (forall a, In a L <-> reaches parents mb a) /\
            n = length L.
Proof.
  unfold get_pseudo_revision. intros H.
  destruct (git_ok_or_raise ["merge-base"; "HEAD"; remote] root w)
    as [[out Hm]|[e Hm]];
    [|rewrite (result_bind_raise _ _ _ _ Hm) in H; discriminate].
  rewrite (result_bind_ok _ _ _ _ Hm) in H.
  set (w1 := world_after _ w) in H.
  destruct (git_ok_or_raise ["log"; Py.rstrip out; log_format] root w1)
    as [[out' Hl]|[e Hl]];
    [|rewrite (result_bind_raise _ _ _ _ Hl) in H; discriminate].
  rewrite (result_bind_ok _ _ _ _ Hl) in H.
  unfold result, ret in H. simpl in H. injection H as <- <-.
  rewrite git_result in Hl. cbv zeta in Hl.
  pose proof (git_log w1 root (Py.rstrip out)) as Hg. cbv zeta in Hg.
  destruct (returncode _ =? 0)%Z eqn:Hz; [|discriminate].
  apply Z.eqb_eq in Hz. destruct (Hg Hz) as [L [Hnd [Hin [Hlb Hout]]]].
  injection Hl as <-. exists L. repeat split; try apply Hin; auto.
  rewrite Hout, splitlines_log_text, length_map; [reflexivity|].
  apply Forall_map. exact Hlb.
Qed.

(** C8: when the merge base of one run is an ancestor of the merge base
    of another, its ordinal is not larger. *)
Theorem ordinal_monotone root1 remote1 w1 n1 mb1 root2 remote2 w2 n2 mb2 :
  result (get_pseudo_revision root1 remote1) w1 = Ok (n1, mb1) ->
  result (get_pseudo_revision root2 remote2) w2 = Ok (n2, mb2) ->
  reaches parents mb2 mb1 ->
  n1 <= n2.
Proof.
  intros H1 H2 Hanc.
  destruct (get_pseudo_revision_counts _ _ _ _ _ H1) as [L1 [Hnd1 [Hin1 ->]]].
  destruct (get_pseudo_revision_counts _ _ _ _ _ H2) as [L2 [_ [Hin2 ->]]].
  apply NoDup_incl_length; [exact Hnd1|].
  intros a Ha. apply Hin2. apply (reaches_trans _ _ mb1); [exact Hanc|].
  now apply Hin1.
Qed.

(** C9: an ordinal that is computed is at least 1, the merge base being
    in its own log. *)
Theorem ordinal_positive root remote w n mb :
  result (get_pseudo_revision root remote) w = Ok (n, mb) ->
  1 <= n.
Proof.
  intros H.
  destruct (get_pseudo_revision_counts _ _ _ _ _ H) as [L [_ [Hin ->]]].
  assert (Hmb : In mb L) by (apply Hin; constructor).
  destruct L; [contradiction | simpl; lia].
Qed.

End Ordinal.

End Runs.

(** ** Instances on the fixtures *)

Lemma is_pristine_head_differs_witness :
  result (git (E := FixtureEnv) ["rev-parse"; "HEAD"] "/src") ahead_checkout =
    Ok ("feedc0de" +++ Py.newline) /\
  Py.rstrip ("feedc0de" +++ Py.newline) <> "deadbeef" /\
  result (is_pristine (E := FixtureEnv) "/src" "deadbeef") ahead_checkout =
    Ok false /\
  existsb (query_named "diff")
    (trace (is_pristine (E := FixtureEnv) "/src" "deadbeef") ahead_checkout) =
    false.
Proof.
  assert (H1 : result (git (E := FixtureEnv) ["rev-parse"; "HEAD"] "/src")
                 ahead_checkout = Ok ("feedc0de" +++ Py.newline))
    by reflexivity.
  assert (H2 : Py.rstrip ("feedc0de" +++ Py.newline) <> "deadbeef")
    by (vm_compute; discriminate).
  destruct (is_pristine_head_differs (E := FixtureEnv) "/src" "deadbeef" _
              ahead_checkout H1 H2) as [Hr [_ Hd]].
  exact (conj H1 (conj H2 (conj Hr Hd))).
Defined.

(** A staged change alone makes the checkout tainted; with an unstaged
    change the staged diff is not even run. *)
Example is_pristine_examples :
  result (is_pristine (E := FixtureEnv) "/src" "abc") pristine_checkout =
    Ok true /\
  result (is_pristine (E := FixtureEnv) "/src" "deadbeef") staged_change =
    Ok false /\
  trace (is_pristine (E := FixtureEnv) "/src" "deadbeef") unstaged_change =
    [EvCheckOutput ["git"; "rev-parse"; "HEAD"] "/src"
       (succeed ("deadbeef" +++ Py.newline));
     EvCheckOutput ["git"; "diff"; "--ignore-submodules=none"; "deadbeef"]
       "/src" (succeed "diff --git a/x b/x")].
Proof. repeat split. Qed.

(** A whole run on a pristine checkout. *)
Example script_run :
  result (script (E := FixtureEnv)) pristine_checkout = Raise (SystemExit 0) /\
  filter (fun ev => negb (is_query ev))
    (trace (script (E := FixtureEnv)) pristine_checkout) =
    [EvPrint "42-abc-rc1";
     EvCall ["/home/dev/src/go_appengine/appcfg.py"; "update";
             "/src/appengine/seeall"; "-V"; "42-abc-rc1"] 0;
     EvCall ["/home/dev/src/go_appengine/appcfg.py"; "set_default_version";
             "/src/appengine/seeall"; "-V"; "42-abc-rc1"] 0].
Proof. split; reflexivity. Qed.

Lemma calculate_version_base_witness :
  result (get_pseudo_revision (E := FixtureEnv) "/src" "origin/master")
    pristine_checkout = Ok (42, "abc") /\
  result (is_pristine (E := FixtureEnv) "/src" "abc") pristine_checkout =
    Ok true /\
  (exists v,
     result (calculate_version (E := FixtureEnv) "/src" (Some "rc1"))
       pristine_checkout = Ok v /\
     String.prefix "42-abc" v = true) /\
  Py.slice_to 7 "abc" = "abc".
Proof.
  assert (H1 : result (get_pseudo_revision (E := FixtureEnv) "/src"
                         "origin/master") pristine_checkout = Ok (42, "abc"))
    by reflexivity.
  assert (H2 : result (is_pristine (E := FixtureEnv) "/src" "abc")
                 pristine_checkout = Ok true) by reflexivity.
  destruct (calculate_version_base (E := FixtureEnv) "/src" (Some "rc1")
              pristine_checkout 42 "abc" true H1 H2)
    as [Hv [_ [_ [Hshort _]]]].
  refine (conj H1 (conj H2 (conj Hv (Hshort _)))). simpl. lia.
Defined.

Lemma calculate_version_suffixes_witness :
  result (get_pseudo_revision (E := FixtureEnv) "/src" "origin/master")
    ahead_checkout = Ok (7, "deadbeef") /\
  result (is_pristine (E := FixtureEnv) "/src" "deadbeef") ahead_checkout =
    Ok false /\
  result (calculate_version (E := FixtureEnv) "/src" (Some "rc2"))
    ahead_checkout = Ok ("7-deadbee" +++ "-tainted-bob" +++ "-rc2").
Proof.
  assert (H1 : result (get_pseudo_revision (E := FixtureEnv) "/src"
                         "origin/master") ahead_checkout = Ok (7, "deadbeef"))
    by reflexivity.
  assert (H2 : result (is_pristine (E := FixtureEnv) "/src" "deadbeef")
                 ahead_checkout = Ok false) by reflexivity.
  exact (conj H1 (conj H2
           (proj1 (calculate_version_suffixes (E := FixtureEnv) "/src"
                     (Some "rc2") ahead_checkout 7 "deadbeef" false H1 H2)))).
Defined.

Lemma deploy_steps_witness :
  parse_args (Env := FixtureEnv) failing_update =
    Ok (mkOptions false None, []) /\
  result (checkout_root (E := FixtureEnv) "/src/appengine") failing_update =
    Ok "/src" /\
  result (calculate_version (E := FixtureEnv) "/src" None) failing_update =
    Ok "7-deadbee" /\
  result (script (E := FixtureEnv)) failing_update = Raise (SystemExit 3) /\
  existsb (call_named "set_default_version")
    (trace (script (E := FixtureEnv)) failing_update) = false.
Proof.
  assert (H1 : parse_args (Env := FixtureEnv) failing_update =
               Ok (mkOptions false None, [])) by reflexivity.
  assert (H2 : result (checkout_root (E := FixtureEnv) "/src/appengine")
                 failing_update = Ok "/src") by reflexivity.
  assert (H3 : result (calculate_version (E := FixtureEnv) "/src" None)
                 failing_update = Ok "7-deadbee") by reflexivity.
  destruct (deploy_steps (E := FixtureEnv) failing_update
              (mkOptions false None) "/src" "7-deadbee" H1 H2 H3)
    as [before [_ [Hr [_ Hn]]]].
  exact (conj H1 (conj H2 (conj H3 (conj Hr Hn)))).
Defined.

Lemma main_rejects_positional_witness :
  parse_args (Env := FixtureEnv) stray_argument =
    Ok (mkOptions false None, ["staging"]) /\
  existsb is_query (trace (script (E := FixtureEnv)) stray_argument) = false.
Proof.
  assert (H : parse_args (Env := FixtureEnv) stray_argument =
              Ok (mkOptions false None, ["staging"])) by reflexivity.
  exact (conj H
           (proj1 (proj2 (proj2
              (main_rejects_positional (E := FixtureEnv) stray_argument
                 (mkOptions false None) "staging" [] H))))).
Defined.

Lemma failing_query_aborts_witness :
  let q := ["git"; "merge-base"; "HEAD"; "origin/master"] in
  let top := ["git"; "rev-parse"; "--show-toplevel"] in
  trace (script (E := FixtureEnv)) no_upstream =
    [EvCheckOutput top "/src/appengine" (succeed ("/src" +++ Py.newline))] ++
    EvCheckOutput q "/src" (fail 128) :: [] /\
  result (script (E := FixtureEnv)) no_upstream =
    Raise (CalledProcessError 128 q EmptyString).
Proof.
  cbv zeta.
  assert (H : trace (script (E := FixtureEnv)) no_upstream =
              [EvCheckOutput ["git"; "rev-parse"; "--show-toplevel"]
                 "/src/appengine" (succeed ("/src" +++ Py.newline))] ++
              EvCheckOutput ["git"; "merge-base"; "HEAD"; "origin/master"]
                "/src" (fail 128) :: []) by reflexivity.
  refine (conj H (proj1 (failing_query_aborts (E := FixtureEnv) no_upstream
                           _ _ _ _ _ H _))).
  simpl. discriminate.
Defined.

(** The exception of a failed query is the same wherever the query was
    run: started in [/a] and in [/b] outside of any repository, the
    script ends with equal exceptions after a query in [/a] and in [/b],
    so no reading of the exception yields the working directory. *)
Lemma called_process_error_without_cwd :
  let q := ["git"; "rev-parse"; "--show-toplevel"] in
  let e := CalledProcessError 128 q EmptyString in
  (trace (script (E := FixtureEnv)) (no_repository "/a") =
     [EvCheckOutput q "/a" (fail 128)] /\
   result (script (E := FixtureEnv)) (no_repository "/a") = Raise e) /\
  (trace (script (E := FixtureEnv)) (no_repository "/b") =
     [EvCheckOutput q "/b" (fail 128)] /\
   result (script (E := FixtureEnv)) (no_repository "/b") = Raise e) /\
  ~ exists cwd_of : Exn -> string,
      forall (cwd : string) argv o e,
        trace (script (E := FixtureEnv)) (no_repository cwd) =
          [EvCheckOutput argv cwd o] ->
        result (script (E := FixtureEnv)) (no_repository cwd) = Raise e ->
        cwd_of e = cwd.
Proof.
  cbv zeta. split; [split; reflexivity|]. split; [split; reflexivity|].
  intros [cwd_of H].
  set (q := ["git"; "rev-parse"; "--show-toplevel"]).
  pose proof (H "/a" q (fail 128) (CalledProcessError 128 q EmptyString)
                eq_refl eq_refl) as Ha.
  pose proof (H "/b" q (fail 128) (CalledProcessError 128 q EmptyString)
                eq_refl eq_refl) as Hb.
  rewrite Ha in Hb. discriminate.
Qed.

(** The computed history answers [git log] as git does. *)

Section Walk.

Variable parents : string -> list string.

Lemma existsb_eqb_In (x : string) (l : list string) :
  existsb (String.eqb x) l = true <-> In x l.
Proof.
  rewrite existsb_exists. split.
  - intros [y [Hy Heq]]. apply String.eqb_eq in Heq. now subst.
  - intros H. exists x. split; [exact H | apply String.eqb_refl].
Qed.

Lemma log_walk_in_history h want a :
  In a (log_walk h want) -> In a (map fst h).
Proof.
  revert want. induction h as [|[id ps] older IH]; intros want H;
    [contradiction|].
  simpl in H. destruct (existsb _ want).
  - destruct H as [<-|H]; [now left | right; eauto].
  - right; eauto.
Qed.

Lemma log_walk_NoDup h want :
  NoDup (map fst h) -> NoDup (log_walk h want).
Proof.
  revert want. induction h as [|[id ps] older IH]; intros want Hnd;
    [constructor|].
  inversion Hnd as [|x l Hnotin Hnd']; subst. simpl.
  destruct (existsb _ want); [|auto].
  constructor; [|auto]. intros H. apply Hnotin.
  exact (log_walk_in_history _ _ _ H).
Qed.

Lemma log_walk_sound h want a :
  (forall id ps, In (id, ps) h -> parents id = ps) ->
  In a (log_walk h want) ->
  exists x, In x want /\ reaches parents x a.
Proof.
  revert want. induction h as [|[id ps] older IH]; intros want Hp H;
    [contradiction|].
  assert (Hp' : forall id ps, In (id, ps) older -> parents id = ps)
    by (intros; apply Hp; now right).
  simpl in H. destruct (existsb _ want) eqn:Hw; [|eauto].
  apply existsb_eqb_In in Hw. destruct H as [<-|H].
  - exists id. split; [exact Hw | constructor].
  - destruct (IH _ Hp' H) as [x [Hx Hr]]. apply in_app_or in Hx.
    destruct Hx as [Hx|Hx]; [|eauto].
    exists id. split; [exact Hw|].
    apply (reaches_parent parents id x a); [|exact Hr].
    now rewrite (Hp id ps) by now left.
Qed.

Lemma log_walk_complete h want x a :
  (forall id ps, In (id, ps) h -> parents id = ps) ->
  wf_history h = true ->
  In x want -> In x (map fst h) -> reaches parents x a ->
  In a (log_walk h want).
Proof.
  revert want x. induction h as [|[id ps] older IH];
    intros want x Hp Hwf Hw Hx Hr; [contradiction|].
  assert (Hp' : forall id ps, In (id, ps) older -> parents id = ps)
    by (intros; apply Hp; now right).
  simpl in Hwf. apply andb_true_iff in Hwf. destruct Hwf as [Hwf Hwf'].
  apply andb_true_iff in Hwf. destruct Hwf as [Hwf _].
  apply andb_true_iff in Hwf. destruct Hwf as [_ Hps].
  rewrite forallb_forall in Hps.
  simpl. destruct (existsb _ want) eqn:Hid.
  - destruct Hx as [Hx|Hx]; simpl in Hx.
    + subst x. inversion Hr as [|c p a' Hin Hr']; subst; [now left|].
      right. rewrite (Hp id ps) in Hin by now left.
      apply (IH (ps ++ want) p); auto.
      * apply in_or_app. now left.
      * apply existsb_eqb_In. apply Hps. exact Hin.
    + right. apply (IH (ps ++ want) x); auto. apply in_or_app. now right.
  - destruct Hx as [Hx|Hx]; simpl in Hx.
    + subst x. apply existsb_eqb_In in Hw. congruence.
    + apply (IH want x); auto.
Qed.

End Walk.

Lemma wf_history_agrees h id ps :
  wf_history h = true -> In (id, ps) h -> parents_in h id = ps.
Proof.
  induction h as [|[id' ps'] older IH]; intros Hwf H; [contradiction|].
  simpl in Hwf. apply andb_true_iff in Hwf. destruct Hwf as [Hwf Hwf'].
  apply andb_true_iff in Hwf. destruct Hwf as [Hwf _].
  apply andb_true_iff in Hwf. destruct Hwf as [Hnew _].
  simpl. destruct H as [H|H].
  - injection H as -> ->. now rewrite String.eqb_refl.
  - destruct (String.eqb_spec id id') as [->|_]; [|auto].
    apply negb_true_iff in Hnew. unfold has_commit in Hnew.
    assert (Hin : In id' (map fst older))
      by (apply (in_map fst) in H; exact H).
    apply existsb_eqb_In in Hin. congruence.
Qed.

Lemma wf_history_NoDup h : wf_history h = true -> NoDup (map fst h).
Proof.
  induction h as [|[id ps] older IH]; intros Hwf; [constructor|].
  simpl in Hwf. apply andb_true_iff in Hwf. destruct Hwf as [Hwf Hwf'].
  apply andb_true_iff in Hwf. destruct Hwf as [Hwf _].
  apply andb_true_iff in Hwf. destruct Hwf as [Hnew _].
  simpl. constructor; [|auto]. intros Hin.
  apply existsb_eqb_In in Hin. apply negb_true_iff in Hnew.
  unfold has_commit in Hnew. congruence.
Qed.

Lemma wf_history_abbrev h a :
  wf_history h = true -> In a (map fst h) ->
  has_linebreak (Py.slice_to 7 a) = false.
Proof.
  induction h as [|[id ps] older IH]; intros Hwf H; [contradiction|].
  simpl in Hwf. apply andb_true_iff in Hwf. destruct Hwf as [Hwf Hwf'].
  apply andb_true_iff in Hwf. destruct Hwf as [_ Hlb].
  destruct H as [<-|H]; [now apply negb_true_iff in Hlb | auto].
Qed.

Lemma history_env_log (h : History) :
  wf_history h = true ->
  git_log_lists_ancestors (E := HistoryEnv h) (parents_in h) (Py.slice_to 7).
Proof.
  intros Hwf w root c. cbn [spawn HistoryEnv]. unfold history_spawn.
  change (String.eqb "git" "git" && String.eqb "log" "log") with true.
  cbv iota. unfold history_log.
  destruct (has_commit h c) eqn:Hc; cbn [fst]; [|discriminate].
  intros _. exists (log_walk h [c]).
  assert (Hp : forall id ps, In (id, ps) h -> parents_in h id = ps)
    by (intros; now apply wf_history_agrees).
  split; [apply log_walk_NoDup; now apply wf_history_NoDup|].
  split; [|split; [|reflexivity]].
  - intros a. split.
    + intros H. destruct (log_walk_sound _ _ _ _ Hp H) as [x [[<-|[]] Hr]].
      exact Hr.
    + intros H. apply (log_walk_complete (parents_in h) h [c] c); auto.
      * now left.
      * now apply existsb_eqb_In.
  - apply Forall_forall. intros a H.
    apply (wf_history_abbrev h); [exact Hwf|].
    exact (log_walk_in_history _ _ _ H).
Qed.

Lemma ordinal_monotone_witness :
  git_log_lists_ancestors (E := HistoryEnv diamond) (parents_in diamond)
    (Py.slice_to 7) /\
  result (get_pseudo_revision (E := HistoryEnv diamond) "/src" "origin/master")
    (checkout_at "4e5f6a7b8c") = Ok (2, "4e5f6a7b8c") /\
  result (get_pseudo_revision (E := HistoryEnv diamond) "/src" "origin/master")
    (checkout_at "c0ffee1234") = Ok (4, "c0ffee1234") /\
  reaches (parents_in diamond) "c0ffee1234" "4e5f6a7b8c" /\
  2 <= 4.
Proof.
  assert (H0 : git_log_lists_ancestors (E := HistoryEnv diamond)
                 (parents_in diamond) (Py.slice_to 7))
    by (apply history_env_log; reflexivity).
  assert (H1 : result (get_pseudo_revision (E := HistoryEnv diamond) "/src"
                         "origin/master") (checkout_at "4e5f6a7b8c") =
               Ok (2, "4e5f6a7b8c")) by reflexivity.
  assert (H2 : result (get_pseudo_revision (E := HistoryEnv diamond) "/src"
                         "origin/master") (checkout_at "c0ffee1234") =
               Ok (4, "c0ffee1234")) by reflexivity.
  assert (H3 : reaches (parents_in diamond) "c0ffee1234" "4e5f6a7b8c").
  { apply (reaches_parent _ _ "4e5f6a7b8c"); [|constructor].
    simpl. auto. }
  exact (conj H0 (conj H1 (conj H2 (conj H3
           (ordinal_monotone (E := HistoryEnv diamond) (parents_in diamond)
              (Py.slice_to 7) H0 _ _ _ _ _ _ _ _ _ _ H1 H2 H3))))).
Defined.

Lemma ordinal_positive_witness :
  git_log_lists_ancestors (E := HistoryEnv diamond) (parents_in diamond)
    (Py.slice_to 7) /\
  result (get_pseudo_revision (E := HistoryEnv diamond) "/src" "origin/master")
    (checkout_at "0a1b2c3d4e") = Ok (1, "0a1b2c3d4e") /\
  1 <= 1.
Proof.
  assert (H0 : git_log_lists_ancestors (E := HistoryEnv diamond)
                 (parents_in diamond) (Py.slice_to 7))
    by (apply history_env_log; reflexivity).
  assert (H1 : result (get_pseudo_revision (E := HistoryEnv diamond) "/src"
                         "origin/master") (checkout_at "0a1b2c3d4e") =
               Ok (1, "0a1b2c3d4e")) by reflexivity.
  exact (conj H0 (conj H1
           (ordinal_positive (E := HistoryEnv diamond) (parents_in diamond)
              (Py.slice_to 7) H0 _ _ _ _ _ H1))).
Defined.

(** * Further properties of the script *)

(** ** Trailing white space *)

Lemma rstrip_spec s :
  (exists ws, s = Py.rstrip s +++ ws /\ all_space ws = true) /\
  ends_with_space (Py.rstrip s) = false.
Proof.
  induction s as [|c s [[ws [Hs Hws]] Hend]]; simpl.
  - split; [exists EmptyString; split; reflexivity | reflexivity].
  - destruct (Py.rstrip s) as [|d r] eqn:Hr.
    + simpl in Hs. destruct (Py.isspace c) eqn:Hc.
      * split; [|reflexivity]. exists (String c ws). subst s.
        split; [reflexivity|]. simpl. now rewrite Hc.
      * split; [|exact Hc]. exists ws. subst s. split; [reflexivity|exact Hws].
    + split; [|exact Hend]. exists ws. split; [|exact Hws].
      simpl. simpl in Hs. now rewrite <- Hs.
Qed.

Lemma rstrip_fixed s : ends_with_space s = false -> Py.rstrip s = s.
Proof.
  induction s as [|c s IH]; [reflexivity|]. intros H. simpl.
  destruct s as [|d s'].
  - simpl in *. now rewrite H.
  - rewrite (IH H). reflexivity.
Qed.

Lemma rstrip_idempotent s : Py.rstrip (Py.rstrip s) = Py.rstrip s.
Proof. apply rstrip_fixed. apply rstrip_spec. Qed.

Section Further.

Context {E : Env}.

(** ** [checkout_root] *)

(** X1: when [checkout_root cwd] returns, it has run the single query
    [git rev-parse --show-toplevel] in [cwd], the query exited with 0,
    and the root is what the query printed without its trailing white
    space: only white space was cut and the root ends with none. *)
Theorem checkout_root_returns (cwd root : string) (w : World) :
  result (checkout_root cwd) w = Ok root ->
  let q := ["git"; "rev-parse"; "--show-toplevel"] in
  let o := fst (spawn q (Some cwd) w) in
  trace (checkout_root cwd) w = [EvCheckOutput q cwd o] /\
  returncode o = 0%Z /\
  (exists ws, output o = root +++ ws /\ all_space ws = true) /\
  ends_with_space root = false.
Proof.
  intros H. cbv zeta. unfold checkout_root in *.
  destruct (git_ok_or_raise ["rev-parse"; "--show-toplevel"] cwd w)
    as [[out Hq]|[e Hq]];
    [|rewrite (result_bind_raise _ _ _ _ Hq) in H; discriminate].
  rewrite (result_bind_ok _ _ _ _ Hq) in H.
  rewrite (trace_bind_ok _ _ _ _ Hq), git_trace.
  unfold result, ret in H. simpl in H. injection H as <-.
  rewrite git_result in Hq. cbv zeta in Hq.
  destruct (returncode _ =? 0)%Z eqn:Hz; [|discriminate].
  injection Hq as Hq. rewrite Hq.
  split; [reflexivity|]. split; [now apply Z.eqb_eq|].
  apply rstrip_spec.
Qed.

(** ** [get_pseudo_revision] *)

(** What a returning run of [get_pseudo_revision] has done. *)
Lemma get_pseudo_revision_ok root remote w n mb :
  result (get_pseudo_revision root remote) w = Ok (n, mb) ->
  let q1 := ["git"; "merge-base"; "HEAD"; remote] in
  let q2 := ["git"; "log"; mb; log_format] in
  let o1 := fst (spawn q1 (Some root) w) in
  let o2 := fst (spawn q2 (Some root) (snd (spawn q1 (Some root) w))) in
  trace (get_pseudo_revision root remote) w =
    [EvCheckOutput q1 root o1; EvCheckOutput q2 root o2] /\
  returncode o1 = 0%Z /\ mb = Py.rstrip (output o1) /\
  returncode o2 = 0%Z /\ n = length (Py.splitlines (output o2)).
Proof.
  intros H. cbv zeta. unfold get_pseudo_revision in *.
  destruct (git_ok_or_raise ["merge-base"; "HEAD"; remote] root w)
    as [[out Hm]|[e Hm]];
    [|rewrite (result_bind_raise _ _ _ _ Hm) in H; discriminate].
  rewrite (result_bind_ok _ _ _ _ Hm) in H.
  rewrite (trace_bind_ok _ _ _ _ Hm).
  destruct (git_ok_or_raise ["log"; Py.rstrip out; log_format] root
              (world_after (git ["merge-base"; "HEAD"; remote] root) w))
    as [[out' Hl]|[e Hl]];
    [|rewrite (result_bind_raise _ _ _ _ Hl) in H; discriminate].
  rewrite (result_bind_ok _ _ _ _ Hl) in H.
  rewrite (trace_bind_ok _ _ _ _ Hl).
  unfold result, ret in H. simpl in H. injection H as <- <-.
  rewrite !git_trace. rewrite git_world in *.
  rewrite git_result in Hm, Hl. cbv zeta in Hm, Hl.
  destruct (returncode (fst (spawn ("git" :: ["merge-base"; "HEAD"; remote])
                               (Some root) w)) =? 0)%Z eqn:Hz1;
    [|discriminate].
  injection Hm as Hm. rewrite <- Hm in *.
  destruct (returncode _ =? 0)%Z eqn:Hz2 in Hl; [|discriminate].
  injection Hl as Hl. rewrite Hl.
  unfold trace at 1, ret; simpl.
  repeat split; try reflexivity; now apply Z.eqb_eq.
Qed.

(** X3: when [get_pseudo_revision] returns, it has run two queries in
    [root], both exited with 0: the merge-base query, then [git log] for
    the very id it returns.  That id is the output of the first query with
    trailing white space cut and nothing else, and the ordinal is the
    number of lines of the second output. *)
Theorem get_pseudo_revision_returns root remote w n mb :
  result (get_pseudo_revision root remote) w = Ok (n, mb) ->
  exists o1 o2,
    trace (get_pseudo_revision root remote) w =
      [EvCheckOutput ["git"; "merge-base"; "HEAD"; remote] root o1;
       EvCheckOutput ["git"; "log"; mb; log_format] root o2] /\
    returncode o1 = 0%Z /\ returncode o2 = 0%Z /\
    (exists ws, output o1 = mb +++ ws /\ all_space ws = true) /\
    ends_with_space mb = false /\
    n = length (Py.splitlines (output o2)).
Proof.
  intros H. destruct (get_pseudo_revision_ok _ _ _ _ _ H)
    as [Ht [H1 [Hmb [H2 Hn]]]].
  eexists. eexists. split; [exact Ht|].
  split; [exact H1|]. split; [exact H2|].
  rewrite Hmb. split; [apply rstrip_spec|]. split; [apply rstrip_spec|].
  rewrite <- Hmb. exact Hn.
Qed.

Lemma splitlines_from_nil cur s :
  Py.splitlines_from cur s = [] <-> cur = EmptyString /\ s = EmptyString.
Proof.
  revert cur. induction s as [|c s IH]; intros cur.
  - destruct cur; simpl; split; try tauto; try discriminate.
    intros [H _]. discriminate.
  - cbn [Py.splitlines_from]. split; [|intros [_ H]; discriminate].
    destruct (Ascii.eqb c "010"); [discriminate|].
    destruct (Ascii.eqb c "013").
    + destruct s as [|d s']; [discriminate|].
      destruct (Ascii.eqb d "010"); discriminate.
    + intros H. apply IH in H. destruct H as [H _].
      destruct cur; discriminate.
Qed.

(** X2: the ordinal is 0 exactly when the successful [git log] printed
    nothing; the function returns it like any other count. *)
Theorem ordinal_zero root remote w n mb :
  result (get_pseudo_revision root remote) w = Ok (n, mb) ->
  exists o,
    In (EvCheckOutput ["git"; "log"; mb; log_format] root o)
       (trace (get_pseudo_revision root remote) w) /\
    returncode o = 0%Z /\
    (n = 0 <-> output o = EmptyString).
Proof.
  intros H. destruct (get_pseudo_revision_ok _ _ _ _ _ H)
    as [Ht [_ [_ [H2 Hn]]]].
  eexists. split; [rewrite Ht; right; left; reflexivity|].
  split; [exact H2|]. rewrite Hn. unfold Py.splitlines.
  rewrite length_zero_iff_nil, splitlines_from_nil. tauto.
Qed.

(** ** [is_pristine] *)

(** X4: with HEAD on the merge base and a diff of the working tree that
    prints something, [is_pristine] returns [False] after two queries:
    the diff of the index is not run. *)
Theorem is_pristine_unstaged (root mergebase out d1 : string) (w : World) :
  let head_q := git ["rev-parse"; "HEAD"] root in
  let unstaged_q := git ["diff"; "--ignore-submodules=none"; mergebase] root in
  let w1 := world_after head_q w in
  result head_q w = Ok out ->
  Py.rstrip out = mergebase ->
  result unstaged_q w1 = Ok d1 ->
  d1 <> EmptyString ->
  result (is_pristine root mergebase) w = Ok false /\
  trace (is_pristine root mergebase) w =
    trace head_q w ++ trace unstaged_q w1 /\
  existsb staged_diff_query (trace (is_pristine root mergebase) w) = false.
Proof.
  cbv zeta. intros Hh Heq H1 Hne. apply String.eqb_eq in Heq.
  assert (Ht1 : Py.truthy d1 = true)
    by (destruct d1; [contradiction | reflexivity]).
  assert (Ht : trace (is_pristine root mergebase) w =
               trace (git ["rev-parse"; "HEAD"] root) w ++
               trace (git ["diff"; "--ignore-submodules=none"; mergebase] root)
                 (world_after (git ["rev-parse"; "HEAD"] root) w)).
  { unfold is_pristine. rewrite (trace_bind_ok _ _ _ _ Hh), Heq.
    cbn [negb]. cbv iota. rewrite (trace_bind_ok _ _ _ _ H1), Ht1.
    unfold trace at 3, ret; simpl. now rewrite app_nil_r. }
  split; [|split; [exact Ht|]].
  - unfold is_pristine. rewrite (result_bind_ok _ _ _ _ Hh), Heq.
    cbn [negb]. cbv iota. rewrite (result_bind_ok _ _ _ _ H1), Ht1.
    reflexivity.
  - rewrite Ht, !git_trace. reflexivity.
Qed.

(** X5: [is_pristine] returns [True] only for a merge base without
    trailing white space: HEAD is compared after [rstrip], the merge base
    as it is given, so the raw output of [git merge-base] never
    matches. *)
Theorem is_pristine_needs_stripped (root mergebase : string) (w : World) :
  result (is_pristine root mergebase) w = Ok true ->
  ends_with_space mergebase = false /\ Py.rstrip mergebase = mergebase.
Proof.
  intros H. unfold is_pristine in H.
  destruct (git_ok_or_raise ["rev-parse"; "HEAD"] root w)
    as [[out Hh]|[e Hh]];
    [|rewrite (result_bind_raise _ _ _ _ Hh) in H; discriminate].
  rewrite (result_bind_ok _ _ _ _ Hh) in H.
  destruct (String.eqb (Py.rstrip out) mergebase) eqn:Heq;
    [|discriminate H].
  apply String.eqb_eq in Heq. subst mergebase.
  split; [apply rstrip_spec | apply rstrip_idempotent].
Qed.

(** ** [calculate_version] *)

Lemma forallb_bind {A B} P (m : M A) (k : A -> M B) :
  (forall w, forallb P (trace m w) = true) ->
  (forall a w, forallb P (trace (k a) w) = true) ->
  forall w, forallb P (trace (bind m k) w) = true.
Proof.
  intros Hm Hk w. rewrite trace_bind, forallb_app, Hm.
  destruct (result m w); [apply Hk | reflexivity].
Qed.

Lemma forallb_git root cmd w :
  forallb (git_query_in root) (trace (git cmd root) w) = true.
Proof. rewrite git_trace. simpl. now rewrite String.eqb_refl. Qed.

Lemma length_bind {A B} (m : M A) (k : A -> M B) a b :
  (forall w, length (trace m w) <= a) ->
  (forall x w, length (trace (k x) w) <= b) ->
  forall w, length (trace (bind m k) w) <= a + b.
Proof.
  intros Hm Hk w. rewrite trace_bind, length_app.
  specialize (Hm w). destruct (result m w) as [x|e].
  - specialize (Hk x (world_after m w)). lia.
  - simpl. lia.
Qed.

Lemma length_git cmd cwd w : length (trace (git cmd cwd) w) = 1.
Proof. now rewrite git_trace. Qed.

Lemma length_is_pristine root mb w :
  1 <= length (trace (is_pristine root mb) w) <= 3.
Proof.
  unfold is_pristine. rewrite trace_bind, length_app, length_git.
  split; [lia|]. destruct (result _ w) as [out|e]; [|simpl; lia].
  destruct (negb _); [simpl; lia|].
  rewrite trace_bind, length_app, length_git.
  destruct (result _ _) as [d1|e]; [|simpl; lia].
  destruct (Py.truthy d1); [simpl; lia|].
  rewrite trace_bind, length_app, length_git.
  destruct (result _ _); simpl; lia.
Qed.

Lemma length_get_pseudo_revision root remote w :
  1 <= length (trace (get_pseudo_revision root remote) w) <= 2.
Proof.
  unfold get_pseudo_revision. rewrite trace_bind, length_app, length_git.
  split; [lia|]. destruct (result _ w) as [out|e]; [|simpl; lia].
  rewrite trace_bind, length_app, length_git.
  destruct (result _ _); simpl; lia.
Qed.

(** What a returning run of [calculate_version] went through. *)
Lemma calculate_version_ok_inv root tag w v :
  result (calculate_version root tag) w = Ok v ->
  exists n mb p,
    result (get_pseudo_revision root "origin/master") w = Ok (n, mb) /\
    result (is_pristine root mb)
      (world_after (get_pseudo_revision root "origin/master") w) = Ok p.
Proof.
  intros H. unfold calculate_version in H.
  destruct (result (get_pseudo_revision root "origin/master") w)
    as [[n mb]|e] eqn:Hrev;
    [|rewrite (result_bind_raise _ _ _ _ Hrev) in H; discriminate].
  rewrite (result_bind_ok _ _ _ _ Hrev) in H.
  destruct (result (is_pristine root mb)
              (world_after (get_pseudo_revision root "origin/master") w))
    as [p|e] eqn:Hpr;
    [|rewrite (result_bind_raise _ _ _ _ Hpr) in H; discriminate].
  now exists n, mb, p.
Qed.

Lemma calculate_version_in_root root tag w :
  forallb (git_query_in root) (trace (calculate_version root tag) w) = true.
Proof.
  revert w. unfold calculate_version.
  apply forallb_bind.
  { unfold get_pseudo_revision. apply forallb_bind;
      [apply forallb_git|]. intros out. apply forallb_bind;
      [apply forallb_git | reflexivity]. }
  intros [n mb]. apply forallb_bind.
  { unfold is_pristine. apply forallb_bind; [apply forallb_git|].
    intros out. destruct (negb _); [reflexivity|].
    apply forallb_bind; [apply forallb_git|]. intros d1.
    destruct (Py.truthy d1); [reflexivity|].
    apply forallb_bind; [apply forallb_git | reflexivity]. }
  intros p. apply forallb_bind; [|reflexivity].
  destruct (negb p); [|reflexivity].
  apply forallb_bind; reflexivity.
Qed.

(** X6: [calculate_version] does nothing but git queries, all of them in
    [root]: at least one and at most five, and at least three when it
    returns a version. *)
Theorem calculate_version_queries (root : string) (tag : option string)
    (w : World) :
  let t := trace (calculate_version root tag) w in
  forallb (git_query_in root) t = true /\
  1 <= length t <= 5 /\
  match result (calculate_version root tag) w with
  | Ok _ => 3 <= length t
  | Raise _ => True
  end.
Proof.
  cbv zeta. split; [|split; [split|]].
  - apply calculate_version_in_root.
  - unfold calculate_version. rewrite trace_bind, length_app.
    pose proof (length_get_pseudo_revision root "origin/master" w). lia.
  - revert w. unfold calculate_version.
    apply (length_bind _ _ 2 3);
      [intros w; apply length_get_pseudo_revision|].
    intros [n mb]. apply (length_bind _ _ 3 0);
      [intros w; apply length_is_pristine|].
    intros p. apply (length_bind _ _ 0 0); [|reflexivity].
    destruct (negb p); [|reflexivity].
    apply (length_bind _ _ 0 0); reflexivity.
  - destruct (result (calculate_version root tag) w) as [v|e] eqn:Hv;
      [|exact I].
    destruct (calculate_version_ok_inv _ _ _ _ Hv) as [n [mb [p [Hrev Hpr]]]].
    unfold calculate_version.
    rewrite (trace_bind_ok _ _ _ _ Hrev), (trace_bind_ok _ _ _ _ Hpr).
    rewrite !length_app.
    destruct (get_pseudo_revision_ok _ _ _ _ _ Hrev) as [Ht _].
    rewrite Ht.
    pose proof (length_is_pristine root mb
                  (world_after (get_pseudo_revision root "origin/master") w)).
    simpl length at 1. lia.
Qed.

(** X7: the tag is appended as it is, so a tag can stand for the taint
    suffix: a pristine checkout tagged [tainted-<user>] gets the version
    of the same merge base tainted by [<user>] without a tag. *)
Theorem tag_imitates_taint root root' w w' n mb user :
  let rev := get_pseudo_revision root "origin/master" in
  let rev' := get_pseudo_revision root' "origin/master" in
  result rev w = Ok (n, mb) ->
  result (is_pristine root mb) (world_after rev w) = Ok false ->
  getuser (world_after (is_pristine root mb) (world_after rev w)) = user ->
  result rev' w' = Ok (n, mb) ->
  result (is_pristine root' mb) (world_after rev' w') = Ok true ->
  result (calculate_version root None) w =
  result (calculate_version root' (Some ("tainted-" +++ user))) w'.
Proof.
  cbv zeta. intros Hrev Hpr Hu Hrev' Hpr'.
  rewrite (calculate_version_result root None w n mb false Hrev Hpr).
  rewrite (calculate_version_result root' _ w' n mb true Hrev' Hpr').
  rewrite Hu. cbn [Py.truthy String.append]. now rewrite !append_empty_r.
Qed.

Lemma all_digits_string_of_uint d :
  all_digits (NilEmpty.string_of_uint d) = true.
Proof. induction d; simpl; auto. Qed.

Lemma str_of_int_inj n m : Py.str_of_int n = Py.str_of_int m -> n = m.
Proof.
  unfold Py.str_of_int. intros H.
  apply DecimalNat.Unsigned.to_uint_inj.
  apply (f_equal NilEmpty.uint_of_string) in H.
  rewrite !NilEmpty.usu in H. now injection H.
Qed.

Lemma digits_before_dash a b r1 r2 :
  all_digits a = true -> all_digits b = true ->
  a +++ String "-" r1 = b +++ String "-" r2 -> a = b.
Proof.
  revert b. induction a as [|x a IH]; intros [|y b] Ha Hb H; simpl in *.
  - reflexivity.
  - injection H as <- _. discriminate.
  - injection H as -> _. discriminate.
  - injection H as <- H. apply andb_true_iff in Ha, Hb.
    f_equal. apply IH; tauto.
Qed.

(** X8: the ordinal can be read off the version: two runs that return
    the same version, whatever their merge bases, taint and tags, have
    the same ordinal. *)
Theorem version_determines_ordinal root1 tag1 w1 n1 mb1 root2 tag2 w2 n2 mb2
    v :
  result (calculate_version root1 tag1) w1 = Ok v ->
  result (calculate_version root2 tag2) w2 = Ok v ->
  result (get_pseudo_revision root1 "origin/master") w1 = Ok (n1, mb1) ->
  result (get_pseudo_revision root2 "origin/master") w2 = Ok (n2, mb2) ->
  n1 = n2.
Proof.
  intros Hv1 Hv2 Hrev1 Hrev2.
  destruct (calculate_version_ok_inv _ _ _ _ Hv1) as [n [mb [p1 [H Hp1]]]].
  rewrite Hrev1 in H. injection H as <- <-.
  destruct (calculate_version_ok_inv _ _ _ _ Hv2) as [n [mb [p2 [H Hp2]]]].
  rewrite Hrev2 in H. injection H as <- <-.
  rewrite (calculate_version_result _ tag1 _ _ _ _ Hrev1 Hp1) in Hv1.
  rewrite (calculate_version_result _ tag2 _ _ _ _ Hrev2 Hp2) in Hv2.
  rewrite <- Hv2 in Hv1. injection Hv1 as Hv.
  rewrite !append_assoc in Hv. cbn [String.append] in Hv.
  apply str_of_int_inj.
  apply (digits_before_dash _ _ _ _ (all_digits_string_of_uint _)
           (all_digits_string_of_uint _) Hv).
Qed.

(** ** [main] case by case *)

Lemma bind_raised {A B} (m : M A) (k : A -> M B) w e :
  result m w = Raise e ->
  bind m k w = (Raise e, world_after m w, trace m w).
Proof.
  intros H. apply bind_raise. rewrite <- H. apply run_eta.
Qed.

Lemma script_of_main w r w' t :
  main w = (r, w', t) ->
  result script w =
    match r with
    | Ok status => Raise (SystemExit status)
    | Raise e => Raise e
    end /\
  trace script w = t.
Proof.
  intros H. unfold result, trace, script, bind, raise. rewrite H.
  destruct r; simpl; [now rewrite app_nil_r | auto].
Qed.

(** The runs of the script, by the point where they end. *)
Lemma script_cases (w : World) :
  match parse_args w with
  | Raise e => result script w = Raise e /\ trace script w = []
  | Ok (options, arg :: args) =>
      result script w = Raise (SystemExit 2) /\
      trace script w =
        [EvParserError
           ("Unknown arguments, " +++ Py.str_of_list (arg :: args))]
  | Ok (options, []) =>
      let root_q := checkout_root (getcwd w) in
      match result root_q w with
      | Raise e => result script w = Raise e /\ trace script w = trace root_q w
      | Ok root =>
          let w1 := world_after root_q w in
          let ver := calculate_version root (tag options) in
          let before :=
            trace root_q w ++
            (if verbose options
             then [EvLogInfo ("Checkout root is " +++ root)] else []) ++
            trace ver w1 in
          match result ver w1 with
          | Raise e => result script w = Raise e /\ trace script w = before
          | Ok version =>
              let tool := Py.os_path_join GO_APPENGINE "appcfg.py" in
              let update := [tool; "update"; SEE_ALL_DIR; "-V"; version] in
              let set_default :=
                [tool; "set_default_version"; SEE_ALL_DIR; "-V"; version] in
              let u := spawn update None (world_after ver w1) in
              let s := spawn set_default None (snd u) in
              if (returncode (fst u) =? 0)%Z
              then
                result script w = Raise (SystemExit (returncode (fst s))) /\
                trace script w =
                  before ++ [EvPrint version; EvCall update 0;
                             EvCall set_default (returncode (fst s))]
              else
                result script w = Raise (SystemExit (returncode (fst u))) /\
                trace script w =
                  before ++
                  [EvPrint version; EvCall update (returncode (fst u))]
          end
      end
  end.
Proof.
  destruct (parse_args w) as [[options [|arg args]]|e] eqn:Hargs.
  - cbv zeta.
    destruct (result (checkout_root (getcwd w)) w) as [root|e] eqn:Hroot.
    + destruct (result (calculate_version root (tag options))
                  (world_after (checkout_root (getcwd w)) w))
        as [version|e] eqn:Hver.
      * pose proof (main_run w options root version Hargs Hroot Hver) as Hm.
        cbv zeta in Hm.
        destruct (returncode (fst (spawn _ None _)) =? 0)%Z eqn:Hz.
        -- apply Z.eqb_eq in Hz.
           destruct (script_of_main _ _ _ _ Hm) as [Hr Ht].
           rewrite Hz in Ht. now split.
        -- exact (script_of_main _ _ _ _ Hm).
      * apply (script_of_main w (Raise e)
                 (world_after (calculate_version root (tag options))
                    (world_after (checkout_root (getcwd w)) w))).
        unfold main.
        rewrite (bind_parse_args _ _ _ Hargs), bind_ret, bind_ask.
        rewrite (bind_after _ _ _ _ Hroot), bind_logging_info, after_after.
        rewrite (bind_raised _ _ _ _ Hver). unfold after. cbn [fst snd].
        now rewrite <- app_assoc.
    + apply (script_of_main w (Raise e)
               (world_after (checkout_root (getcwd w)) w)).
      unfold main.
      rewrite (bind_parse_args _ _ _ Hargs), bind_ret, bind_ask.
      now rewrite (bind_raised _ _ _ _ Hroot).
  - apply (script_of_main w (Raise (SystemExit 2)) w).
    unfold main. rewrite (bind_parse_args _ _ _ Hargs).
    unfold bind, parser_error, emit, raise. reflexivity.
  - apply (script_of_main w (Raise e) w).
    unfold main, bind, optparse_parse_args. now rewrite Hargs.
Qed.

(** ** What the script does in which order *)

Lemma before_quiet P cwd root tag w w1 (lg : bool) :
  (forall argv cwd o, P (EvCheckOutput argv cwd o) = false) ->
  (forall msg, P (EvLogInfo msg) = false) ->
  existsb P
    (trace (checkout_root cwd) w ++
     (if lg then [EvLogInfo ("Checkout root is " +++ root)] else []) ++
     trace (calculate_version root tag) w1) = false.
Proof.
  intros Hq Hl. rewrite !existsb_app.
  rewrite (never_checkout_root P _ Hq w).
  rewrite (never_calculate_version P _ _ Hq w1).
  destruct lg; simpl; now rewrite ?Hl.
Qed.

(** X9: every run of the script is a first part without output and
    without deploy, followed by nothing or by the deploy part: the version
    is printed, the deploy tool is run with [update] and that version,
    and, only after a status 0, once more with [set_default_version] and
    the same version.  No git query follows the print. *)
Theorem script_phases (w : World) :
  exists qs ds,
    trace script w = qs ++ ds /\
    existsb is_print qs = false /\
    existsb is_call qs = false /\
    (ds = [] \/
     exists version status,
       let tool := Py.os_path_join GO_APPENGINE "appcfg.py" in
       let update := [tool; "update"; SEE_ALL_DIR; "-V"; version] in
       let set_default :=
         [tool; "set_default_version"; SEE_ALL_DIR; "-V"; version] in
       (status <> 0%Z /\ ds = [EvPrint version; EvCall update status]) \/
       ds = [EvPrint version; EvCall update 0; EvCall set_default status]).
Proof.
  pose proof (script_cases w) as H.
  destruct (parse_args w) as [[options [|arg args]]|e].
  - cbv zeta in H.
    destruct (result (checkout_root (getcwd w)) w) as [root|e].
    + destruct (result (calculate_version root (tag options)) _)
        as [version|e].
      * destruct (returncode (fst (spawn _ None _)) =? 0)%Z eqn:Hz.
        -- destruct H as [_ Ht]. eexists. eexists.
           split; [exact Ht|].
           split; [now apply before_quiet|].
           split; [now apply before_quiet|].
           right. eexists. eexists. right. reflexivity.
        -- destruct H as [_ Ht]. eexists. eexists.
           split; [exact Ht|].
           split; [now apply before_quiet|].
           split; [now apply before_quiet|].
           right. eexists. eexists. left.
           split; [|reflexivity]. now apply Z.eqb_neq.
      * destruct H as [_ Ht]. eexists. exists [].
        rewrite app_nil_r. split; [exact Ht|].
        split; [now apply before_quiet|].
        split; [now apply before_quiet | now left].
    + destruct H as [_ Ht]. eexists. exists [].
      rewrite app_nil_r. split; [exact Ht|].
      split; [now apply never_checkout_root|].
      split; [now apply never_checkout_root | now left].
  - destruct H as [_ Ht]. eexists. exists []. rewrite app_nil_r.
    split; [exact Ht|]. repeat split. now left.
  - destruct H as [_ Ht]. exists [], []. rewrite Ht. repeat split. now left.
Qed.

(** X10: when the script ends with the exception of a failed query,
    nothing has been printed and the deploy tool has not been run. *)
Theorem failed_query_deploys_nothing (w : World) (status : Z)
    (cmd : list string) (out : string) :
  result script w = Raise (CalledProcessError status cmd out) ->
  existsb is_print (trace script w) = false /\
  existsb is_call (trace script w) = false.
Proof.
  intros Hr. pose proof (script_cases w) as H.
  destruct (parse_args w) as [[options [|arg args]]|e].
  - cbv zeta in H.
    destruct (result (checkout_root (getcwd w)) w) as [root|e].
    + destruct (result (calculate_version root (tag options)) _)
        as [version|e].
      * destruct (returncode (fst (spawn _ None _)) =? 0)%Z;
          destruct H as [H _]; rewrite H in Hr; discriminate.
      * destruct H as [_ Ht]. rewrite Ht.
        split; now apply before_quiet.
    + destruct H as [_ Ht]. rewrite Ht.
      split; now apply never_checkout_root.
  - destruct H as [H _]. rewrite H in Hr. discriminate.
  - destruct H as [_ Ht]. rewrite Ht. split; reflexivity.
Qed.

Lemma raises_bind {A B} (m : M A) (k : A -> M B) :
  (forall w e, result m w = Raise e -> query_error e = true) ->
  (forall a w e, result (k a) w = Raise e -> query_error e = true) ->
  forall w e, result (bind m k) w = Raise e -> query_error e = true.
Proof.
  intros Hm Hk w e H. destruct (result m w) as [a|e'] eqn:Hr.
  - rewrite (result_bind_ok _ _ _ _ Hr) in H. eauto.
  - rewrite (result_bind_raise _ _ _ _ Hr) in H. injection H as <-. eauto.
Qed.

Lemma raises_git cmd cwd w e :
  result (git cmd cwd) w = Raise e -> query_error e = true.
Proof.
  rewrite git_result. cbv zeta. destruct (returncode _ =? 0)%Z;
    [discriminate|]. now intros [= <-].
Qed.

Lemma raises_ret {A} (a : A) w e :
  result (ret a) w = Raise e -> query_error e = true.
Proof. discriminate. Qed.

Lemma raises_checkout_root cwd w e :
  result (checkout_root cwd) w = Raise e -> query_error e = true.
Proof.
  revert w e. unfold checkout_root.
  apply raises_bind; [apply raises_git|]. intros out. apply raises_ret.
Qed.

Lemma raises_calculate_version root tag w e :
  result (calculate_version root tag) w = Raise e -> query_error e = true.
Proof.
  revert w e. unfold calculate_version. apply raises_bind.
  { unfold get_pseudo_revision. apply raises_bind; [apply raises_git|].
    intros out. apply raises_bind; [apply raises_git|].
    intros out'. apply raises_ret. }
  intros [n mb]. apply raises_bind.
  { unfold is_pristine. apply raises_bind; [apply raises_git|].
    intros out. destruct (negb _); [apply raises_ret|].
    apply raises_bind; [apply raises_git|]. intros d1.
    destruct (Py.truthy d1); [apply raises_ret|].
    apply raises_bind; [apply raises_git|]. intros d2. apply raises_ret. }
  intros p. apply raises_bind; [|intros v; apply raises_ret].
  destruct (negb p); [|apply raises_ret].
  apply raises_bind; [discriminate|]. intros u. apply raises_ret.
Qed.

(** X11: once the command line is parsed, the script exits with status 0
    only at the end of a full deployment: the version was printed and
    both [update] and [set_default_version] returned 0 for it. *)
Theorem exit_zero_is_full_deploy (w : World)
    (parsed : Options * list string) :
  parse_args w = Ok parsed ->
  result script w = Raise (SystemExit 0) ->
  exists before version,
    let tool := Py.os_path_join GO_APPENGINE "appcfg.py" in
    trace script w =
      before ++
      [EvPrint version;
       EvCall [tool; "update"; SEE_ALL_DIR; "-V"; version] 0;
       EvCall [tool; "set_default_version"; SEE_ALL_DIR; "-V"; version] 0].
Proof.
  intros Hargs Hr. pose proof (script_cases w) as H. rewrite Hargs in H.
  destruct parsed as [options [|arg args]].
  - cbv zeta in H.
    destruct (result (checkout_root (getcwd w)) w) as [root|e] eqn:Hroot.
    + destruct (result (calculate_version root (tag options)) _)
        as [version|e] eqn:Hver.
      * assert (Hexit : forall a b : Z,
                  @Raise unit (SystemExit a) = Raise (SystemExit b) -> a = b)
          by (intros a b [=]; assumption).
        destruct (returncode (fst (spawn _ None _)) =? 0)%Z eqn:Hz;
          destruct H as [H Ht]; rewrite H in Hr; apply Hexit in Hr.
        -- rewrite Hr in Ht. eexists. eexists. exact Ht.
        -- rewrite Hr in Hz. discriminate.
      * destruct H as [H _]. rewrite H in Hr. injection Hr as ->.
        now apply raises_calculate_version in Hver.
    + destruct H as [H _]. rewrite H in Hr. injection Hr as ->.
      now apply raises_checkout_root in Hroot.
  - destruct H as [H _]. rewrite H in Hr. discriminate.
Qed.

Lemma existsb_filter_nil {A} (P : A -> bool) l :
  existsb P l = false -> filter P l = [].
Proof.
  induction l as [|x l IH]; [reflexivity|]. simpl.
  destruct (P x); [discriminate | exact IH].
Qed.

(** X12: the only record the script logs is [Checkout root is <root>],
    once, when [-v] was given and the root was found; without [-v], or
    when the root is not found, it logs nothing. *)
Theorem logging_of_script (w : World) (options : Options) :
  parse_args w = Ok (options, []) ->
  filter is_log (trace script w) =
  match result (checkout_root (getcwd w)) w with
  | Ok root =>
      if verbose options then [EvLogInfo ("Checkout root is " +++ root)]
      else []
  | Raise _ => []
  end.
Proof.
  intros Hargs. pose proof (script_cases w) as H. rewrite Hargs in H.
  cbv zeta in H.
  assert (Hq : forall cwd w', filter is_log (trace (checkout_root cwd) w') = [])
    by (intros; apply existsb_filter_nil; now apply never_checkout_root).
  assert (Hv : forall root tag w',
             filter is_log (trace (calculate_version root tag) w') = [])
    by (intros; apply existsb_filter_nil;
        now apply never_calculate_version).
  destruct (result (checkout_root (getcwd w)) w) as [root|e].
  - destruct (result (calculate_version root (tag options)) _)
      as [version|e].
    + destruct (returncode (fst (spawn _ None _)) =? 0)%Z;
        destruct H as [_ Ht]; rewrite Ht, !filter_app, Hq, Hv;
        destruct (verbose options); reflexivity.
    + destruct H as [_ Ht]. rewrite Ht, !filter_app, Hq, Hv.
      destruct (verbose options); reflexivity.
  - destruct H as [_ Ht]. rewrite Ht. apply Hq.
Qed.

(** X13: a child process, git or the deploy tool, is run only when the
    option parser returned and left no positional argument. *)
Theorem child_process_needs_clean_command_line (w : World) :
  existsb (fun ev => is_query ev || is_call ev) (trace script w) = true ->
  exists options, parse_args w = Ok (options, []).
Proof.
  intros Hex. pose proof (script_cases w) as H.
  destruct (parse_args w) as [[options [|arg args]]|e].
  - now exists options.
  - destruct H as [_ Ht]. rewrite Ht in Hex. discriminate.
  - destruct H as [_ Ht]. rewrite Ht in Hex. discriminate.
Qed.

Lemma checkout_root_run cwd w :
  let q := ["git"; "rev-parse"; "--show-toplevel"] in
  let o := fst (spawn q (Some cwd) w) in
  trace (checkout_root cwd) w = [EvCheckOutput q cwd o] /\
  forall root, result (checkout_root cwd) w = Ok root ->
               returncode o = 0%Z /\ root = Py.rstrip (output o).
Proof.
  cbv zeta. unfold checkout_root. split.
  - rewrite trace_bind, git_trace.
    now destruct (result (git _ cwd) w).
  - intros root H.
    destruct (git_ok_or_raise ["rev-parse"; "--show-toplevel"] cwd w)
      as [[out Hq]|[e Hq]];
      [|rewrite (result_bind_raise _ _ _ _ Hq) in H; discriminate].
    rewrite (result_bind_ok _ _ _ _ Hq) in H.
    unfold result, ret in H. simpl in H. injection H as <-.
    rewrite git_result in Hq. cbv zeta in Hq.
    destruct (returncode _ =? 0)%Z eqn:Hz; [|discriminate].
    injection Hq as ->. split; [now apply Z.eqb_eq | reflexivity].
Qed.

(** X14: the first action of the script is
    [git rev-parse --show-toplevel] in the current directory; every
    later git query is run in the root which that query printed (its
    output without trailing white space), and only after it exited
    with 0. *)
Theorem queries_run_in_root (w : World) (options : Options) :
  parse_args w = Ok (options, []) ->
  let q := ["git"; "rev-parse"; "--show-toplevel"] in
  let o := fst (spawn q (Some (getcwd w)) w) in
  exists rest,
    trace script w = EvCheckOutput q (getcwd w) o :: rest /\
    forall argv cwd o',
      In (EvCheckOutput argv cwd o') rest ->
      returncode o = 0%Z /\ cwd = Py.rstrip (output o).
Proof.
  intros Hargs. cbv zeta. pose proof (script_cases w) as H.
  rewrite Hargs in H. cbv zeta in H.
  destruct (checkout_root_run (getcwd w) w) as [Htq Hok].
  cbv zeta in Htq, Hok.
  assert (Hin : forall root tag w1 (lg : bool) tail argv cwd o',
            (forall ev, In ev tail -> is_query ev = false) ->
            In (EvCheckOutput argv cwd o')
               ((if lg then [EvLogInfo ("Checkout root is " +++ root)]
                 else []) ++ trace (calculate_version root tag) w1 ++ tail) ->
            cwd = root).
  { intros root tg w1 lg tail argv cwd o' Htail Hi.
    apply in_app_or in Hi. destruct Hi as [Hi|Hi].
    { destruct lg; simpl in Hi; [destruct Hi as [Hi|[]]; discriminate|].
      contradiction. }
    apply in_app_or in Hi. destruct Hi as [Hi|Hi].
    - pose proof (calculate_version_in_root root tg w1) as Hf.
      rewrite forallb_forall in Hf. specialize (Hf _ Hi). simpl in Hf.
      apply andb_true_iff in Hf. destruct Hf as [_ Hf].
      now apply String.eqb_eq in Hf.
    - apply Htail in Hi. discriminate. }
  destruct (result (checkout_root (getcwd w)) w) as [root|e].
  - destruct (Hok root eq_refl) as [Hz Hroot].
    destruct (result (calculate_version root (tag options)) _)
      as [version|e].
    + destruct (returncode (fst (spawn _ None _)) =? 0)%Z;
        destruct H as [_ Ht]; rewrite Ht, Htq, <- !app_assoc;
        cbn [app]; eexists; (split; [reflexivity|]);
        intros argv cwd o' Hi; (split; [exact Hz|]);
        rewrite <- Hroot; apply Hin in Hi; auto;
        intros ev Hev; simpl in Hev;
        repeat (destruct Hev as [<-|Hev]; [reflexivity|]);
        contradiction.
    + destruct H as [_ Ht]. rewrite Ht, Htq. cbn [app].
      eexists. split; [reflexivity|].
      intros argv cwd o' Hi. split; [exact Hz|]. rewrite <- Hroot.
      eapply (Hin root (tag options) _ (verbose options) []);
        [intros ev []|]. rewrite app_nil_r. exact Hi.
  - destruct H as [_ Ht]. rewrite Ht, Htq. exists [].
    split; [reflexivity|]. intros argv cwd o' [].
Qed.

End Further.

(** ** The ordinal along the history *)

Section OrdinalOrder.

Context {E : Env}.
Variable parents : string -> list string.
Variable abbrev : string -> string.
Hypothesis git_log : git_log_lists_ancestors parents abbrev.

(** X15: when [git log] lists the ancestors, the ordinal grows strictly
    from a merge base to a descendant that is not among its own
    ancestors, as two different commits of a history are. *)
Theorem ordinal_strictly_monotone root1 remote1 w1 n1 mb1 root2 remote2 w2
    n2 mb2 :
  result (get_pseudo_revision root1 remote1) w1 = Ok (n1, mb1) ->
  result (get_pseudo_revision root2 remote2) w2 = Ok (n2, mb2) ->
  reaches parents mb2 mb1 ->
  ~ reaches parents mb1 mb2 ->
  n1 < n2.
Proof.
  intros H1 H2 Hanc Hnot.
  destruct (get_pseudo_revision_counts parents abbrev git_log _ _ _ _ _ H1)
    as [L1 [Hnd1 [Hin1 ->]]].
  destruct (get_pseudo_revision_counts parents abbrev git_log _ _ _ _ _ H2)
    as [L2 [_ [Hin2 ->]]].
  change (length (mb2 :: L1) <= length L2). apply NoDup_incl_length.
  - constructor; [|exact Hnd1]. intros Hi. apply Hnot. now apply Hin1.
  - intros a [<-|Ha].
    + apply Hin2. constructor.
    + apply Hin2. apply (reaches_trans _ _ mb1); [exact Hanc|].
      now apply Hin1.
Qed.

(** X16: when [git log] lists the ancestors, the ordinal depends on the
    merge base alone: two runs, in whatever checkouts and states, that
    find the same merge base return the same ordinal. *)
Theorem ordinal_of_merge_base root1 remote1 w1 n1 root2 remote2 w2 n2 mb :
  result (get_pseudo_revision root1 remote1) w1 = Ok (n1, mb) ->
  result (get_pseudo_revision root2 remote2) w2 = Ok (n2, mb) ->
  n1 = n2.
Proof.
  intros H1 H2.
  destruct (get_pseudo_revision_counts parents abbrev git_log _ _ _ _ _ H1)
    as [L1 [Hnd1 [Hin1 ->]]].
  destruct (get_pseudo_revision_counts parents abbrev git_log _ _ _ _ _ H2)
    as [L2 [Hnd2 [Hin2 ->]]].
  apply Nat.le_antisymm; apply NoDup_incl_length; trivial;
    intros a Ha; [apply Hin2, Hin1 | apply Hin1, Hin2]; exact Ha.
Qed.

End OrdinalOrder.

(** ** Instances of the further properties *)

Lemma checkout_root_returns_witness :
  result (checkout_root (E := FixtureEnv) "/src/appengine") pristine_checkout =
    Ok "/src" /\
  trace (checkout_root (E := FixtureEnv) "/src/appengine") pristine_checkout =
    [EvCheckOutput ["git"; "rev-parse"; "--show-toplevel"] "/src/appengine"
       (succeed ("/src" +++ Py.newline))] /\
  ends_with_space "/src" = false.
Proof.
  assert (H : result (checkout_root (E := FixtureEnv) "/src/appengine")
                pristine_checkout = Ok "/src") by reflexivity.
  destruct (checkout_root_returns (E := FixtureEnv) "/src/appengine" "/src"
              pristine_checkout H) as [Ht [_ [_ He]]].
  exact (conj H (conj Ht He)).
Defined.

Lemma ordinal_zero_witness :
  result (get_pseudo_revision (E := FixtureEnv) "/src" "origin/master")
    empty_log = Ok (0, "deadbeef") /\
  exists o,
    In (EvCheckOutput ["git"; "log"; "deadbeef"; log_format] "/src" o)
       (trace (get_pseudo_revision (E := FixtureEnv) "/src" "origin/master")
          empty_log) /\
    returncode o = 0%Z /\
    (0 = 0 <-> output o = EmptyString).
Proof.
  assert (H : result (get_pseudo_revision (E := FixtureEnv) "/src"
                        "origin/master") empty_log = Ok (0, "deadbeef"))
    by reflexivity.
  exact (conj H (ordinal_zero (E := FixtureEnv) "/src" "origin/master"
                   empty_log 0 "deadbeef" H)).
Defined.

Lemma get_pseudo_revision_returns_witness :
  result (get_pseudo_revision (E := FixtureEnv) "/src" "origin/master")
    pristine_checkout = Ok (42, "abc") /\
  exists o1 o2,
    trace (get_pseudo_revision (E := FixtureEnv) "/src" "origin/master")
      pristine_checkout =
      [EvCheckOutput ["git"; "merge-base"; "HEAD"; "origin/master"] "/src" o1;
       EvCheckOutput ["git"; "log"; "abc"; log_format] "/src" o2] /\
    returncode o1 = 0%Z /\ returncode o2 = 0%Z /\
    (exists ws, output o1 = "abc" +++ ws /\ all_space ws = true) /\
    ends_with_space "abc" = false /\
    42 = length (Py.splitlines (output o2)).
Proof.
  assert (H : result (get_pseudo_revision (E := FixtureEnv) "/src"
                        "origin/master") pristine_checkout = Ok (42, "abc"))
    by reflexivity.
  exact (conj H (get_pseudo_revision_returns (E := FixtureEnv) "/src"
                   "origin/master" pristine_checkout 42 "abc" H)).
Defined.

Lemma is_pristine_unstaged_witness :
  result (git (E := FixtureEnv) ["rev-parse"; "HEAD"] "/src") unstaged_change =
    Ok ("deadbeef" +++ Py.newline) /\
  Py.rstrip ("deadbeef" +++ Py.newline) = "deadbeef" /\
  result (git (E := FixtureEnv) ["diff"; "--ignore-submodules=none"; "deadbeef"]
            "/src") unstaged_change = Ok "diff --git a/x b/x" /\
  "diff --git a/x b/x" <> EmptyString /\
  result (is_pristine (E := FixtureEnv) "/src" "deadbeef") unstaged_change =
    Ok false /\
  existsb staged_diff_query
    (trace (is_pristine (E := FixtureEnv) "/src" "deadbeef") unstaged_change) =
    false.
Proof.
  assert (H1 : result (git (E := FixtureEnv) ["rev-parse"; "HEAD"] "/src")
                 unstaged_change = Ok ("deadbeef" +++ Py.newline))
    by reflexivity.
  assert (H2 : Py.rstrip ("deadbeef" +++ Py.newline) = "deadbeef")
    by reflexivity.
  assert (H3 : result (git (E := FixtureEnv)
                         ["diff"; "--ignore-submodules=none"; "deadbeef"]
                         "/src") unstaged_change = Ok "diff --git a/x b/x")
    by reflexivity.
  assert (H4 : "diff --git a/x b/x" <> EmptyString) by discriminate.
  destruct (is_pristine_unstaged (E := FixtureEnv) "/src" "deadbeef" _ _
              unstaged_change H1 H2 H3 H4) as [Hr [_ Hs]].
  exact (conj H1 (conj H2 (conj H3 (conj H4 (conj Hr Hs))))).
Defined.

Lemma is_pristine_needs_stripped_witness :
  result (is_pristine (E := FixtureEnv) "/src" "abc") pristine_checkout =
    Ok true /\
  ends_with_space "abc" = false /\ Py.rstrip "abc" = "abc".
Proof.
  assert (H : result (is_pristine (E := FixtureEnv) "/src" "abc")
                pristine_checkout = Ok true) by reflexivity.
  exact (conj H (is_pristine_needs_stripped (E := FixtureEnv) "/src" "abc"
                   pristine_checkout H)).
Defined.

Lemma tag_imitates_taint_witness :
  result (get_pseudo_revision (E := FixtureEnv) "/src" "origin/master")
    ahead_checkout = Ok (7, "deadbeef") /\
  result (is_pristine (E := FixtureEnv) "/src" "deadbeef") ahead_checkout =
    Ok false /\
  result (get_pseudo_revision (E := FixtureEnv) "/src" "origin/master")
    failing_update = Ok (7, "deadbeef") /\
  result (is_pristine (E := FixtureEnv) "/src" "deadbeef") failing_update =
    Ok true /\
  result (calculate_version (E := FixtureEnv) "/src" None) ahead_checkout =
  result (calculate_version (E := FixtureEnv) "/src" (Some "tainted-bob"))
    failing_update.
Proof.
  assert (H1 : result (get_pseudo_revision (E := FixtureEnv) "/src"
                         "origin/master") ahead_checkout = Ok (7, "deadbeef"))
    by reflexivity.
  assert (H2 : result (is_pristine (E := FixtureEnv) "/src" "deadbeef")
                 ahead_checkout = Ok false) by reflexivity.
  assert (H3 : result (get_pseudo_revision (E := FixtureEnv) "/src"
                         "origin/master") failing_update = Ok (7, "deadbeef"))
    by reflexivity.
  assert (H4 : result (is_pristine (E := FixtureEnv) "/src" "deadbeef")
                 failing_update = Ok true) by reflexivity.
  exact (conj H1 (conj H2 (conj H3 (conj H4
           (tag_imitates_taint (E := FixtureEnv) "/src" "/src" ahead_checkout
              failing_update 7 "deadbeef" "bob" H1 H2 eq_refl H3 H4))))).
Defined.

Lemma version_determines_ordinal_witness :
  result (calculate_version (E := FixtureEnv) "/src" None) ahead_checkout =
    Ok "7-deadbee-tainted-bob" /\
  result (calculate_version (E := FixtureEnv) "/src" (Some "tainted-bob"))
    failing_update = Ok "7-deadbee-tainted-bob" /\
  result (get_pseudo_revision (E := FixtureEnv) "/src" "origin/master")
    ahead_checkout = Ok (7, "deadbeef") /\
  result (get_pseudo_revision (E := FixtureEnv) "/src" "origin/master")
    failing_update = Ok (7, "deadbeef") /\
  7 = 7.
Proof.
  assert (H1 : result (calculate_version (E := FixtureEnv) "/src" None)
                 ahead_checkout = Ok "7-deadbee-tainted-bob") by reflexivity.
  assert (H2 : result (calculate_version (E := FixtureEnv) "/src"
                         (Some "tainted-bob")) failing_update =
               Ok "7-deadbee-tainted-bob") by reflexivity.
  assert (H3 : result (get_pseudo_revision (E := FixtureEnv) "/src"
                         "origin/master") ahead_checkout = Ok (7, "deadbeef"))
    by reflexivity.
  assert (H4 : result (get_pseudo_revision (E := FixtureEnv) "/src"
                         "origin/master") failing_update = Ok (7, "deadbeef"))
    by reflexivity.
  exact (conj H1 (conj H2 (conj H3 (conj H4
           (version_determines_ordinal (E := FixtureEnv) _ _ _ _ _ _ _ _ _ _
              _ H1 H2 H3 H4))))).
Defined.

Lemma failed_query_deploys_nothing_witness :
  result (script (E := FixtureEnv)) no_upstream =
    Raise (CalledProcessError 128
             ["git"; "merge-base"; "HEAD"; "origin/master"] EmptyString) /\
  existsb is_print (trace (script (E := FixtureEnv)) no_upstream) = false /\
  existsb is_call (trace (script (E := FixtureEnv)) no_upstream) = false.
Proof.
  assert (H : result (script (E := FixtureEnv)) no_upstream =
              Raise (CalledProcessError 128
                       ["git"; "merge-base"; "HEAD"; "origin/master"]
                       EmptyString)) by reflexivity.
  exact (conj H (failed_query_deploys_nothing (E := FixtureEnv) no_upstream
                   _ _ _ H)).
Defined.

Lemma exit_zero_is_full_deploy_witness :
  parse_args (Env := FixtureEnv) pristine_checkout =
    Ok (mkOptions false (Some "rc1"), []) /\
  result (script (E := FixtureEnv)) pristine_checkout = Raise (SystemExit 0) /\
  exists before version,
    trace (script (E := FixtureEnv)) pristine_checkout =
      before ++
      [EvPrint version;
       EvCall ["/home/dev/src/go_appengine/appcfg.py"; "update";
               "/src/appengine/seeall"; "-V"; version] 0;
       EvCall ["/home/dev/src/go_appengine/appcfg.py"; "set_default_version";
               "/src/appengine/seeall"; "-V"; version] 0].
Proof.
  assert (H1 : parse_args (Env := FixtureEnv) pristine_checkout =
               Ok (mkOptions false (Some "rc1"), [])) by reflexivity.
  assert (H2 : result (script (E := FixtureEnv)) pristine_checkout =
               Raise (SystemExit 0)) by reflexivity.
  exact (conj H1 (conj H2
           (exit_zero_is_full_deploy (E := FixtureEnv) pristine_checkout _
              H1 H2))).
Defined.

Lemma logging_of_script_witness :
  parse_args (Env := FixtureEnv) verbose_run = Ok (mkOptions true None, []) /\
  filter is_log (trace (script (E := FixtureEnv)) verbose_run) =
    [EvLogInfo "Checkout root is /src"].
Proof.
  assert (H : parse_args (Env := FixtureEnv) verbose_run =
              Ok (mkOptions true None, [])) by reflexivity.
  exact (conj H (logging_of_script (E := FixtureEnv) verbose_run _ H)).
Defined.

Lemma child_process_needs_clean_command_line_witness :
  existsb (fun ev => is_query ev || is_call ev)
    (trace (script (E := FixtureEnv)) pristine_checkout) = true /\
  exists options,
    parse_args (Env := FixtureEnv) pristine_checkout = Ok (options, []).
Proof.
  assert (H : existsb (fun ev => is_query ev || is_call ev)
                (trace (script (E := FixtureEnv)) pristine_checkout) = true)
    by reflexivity.
  exact (conj H (child_process_needs_clean_command_line (E := FixtureEnv)
                   pristine_checkout H)).
Defined.

Lemma queries_run_in_root_witness :
  parse_args (Env := FixtureEnv) verbose_run = Ok (mkOptions true None, []) /\
  exists rest,
    trace (script (E := FixtureEnv)) verbose_run =
      EvCheckOutput ["git"; "rev-parse"; "--show-toplevel"]
        "/src/appengine/seeall" (succeed ("/src" +++ Py.newline)) :: rest /\
    forall argv cwd o',
      In (EvCheckOutput argv cwd o') rest -> 0%Z = 0%Z /\ cwd = "/src".
Proof.
  assert (H : parse_args (Env := FixtureEnv) verbose_run =
              Ok (mkOptions true None, [])) by reflexivity.
  exact (conj H (queries_run_in_root (E := FixtureEnv) verbose_run _ H)).
Defined.

Lemma history_reaches_listed h c a :
  wf_history h = true -> has_commit h c = true ->
  reaches (parents_in h) c a -> In a (log_walk h [c]).
Proof.
  intros Hwf Hc Hr.
  apply (log_walk_complete (parents_in h) h [c] c a); auto.
  - intros id ps. now apply wf_history_agrees.
  - now left.
  - now apply existsb_eqb_In.
Qed.

Lemma ordinal_strictly_monotone_witness :
  git_log_lists_ancestors (E := HistoryEnv diamond) (parents_in diamond)
    (Py.slice_to 7) /\
  result (get_pseudo_revision (E := HistoryEnv diamond) "/src" "origin/master")
    (checkout_at "4e5f6a7b8c") = Ok (2, "4e5f6a7b8c") /\
  result (get_pseudo_revision (E := HistoryEnv diamond) "/src" "origin/master")
    (checkout_at "c0ffee1234") = Ok (4, "c0ffee1234") /\
  reaches (parents_in diamond) "c0ffee1234" "4e5f6a7b8c" /\
  ~ reaches (parents_in diamond) "4e5f6a7b8c" "c0ffee1234" /\
  2 < 4.
Proof.
  assert (H0 : git_log_lists_ancestors (E := HistoryEnv diamond)
                 (parents_in diamond) (Py.slice_to 7))
    by (apply history_env_log; reflexivity).
  assert (H1 : result (get_pseudo_revision (E := HistoryEnv diamond) "/src"
                         "origin/master") (checkout_at "4e5f6a7b8c") =
               Ok (2, "4e5f6a7b8c")) by reflexivity.
  assert (H2 : result (get_pseudo_revision (E := HistoryEnv diamond) "/src"
                         "origin/master") (checkout_at "c0ffee1234") =
               Ok (4, "c0ffee1234")) by reflexivity.
  assert (H3 : reaches (parents_in diamond) "c0ffee1234" "4e5f6a7b8c").
  { apply (reaches_parent _ _ "4e5f6a7b8c"); [|constructor].
    simpl. auto. }
  assert (H4 : ~ reaches (parents_in diamond) "4e5f6a7b8c" "c0ffee1234").
  { intros H. apply history_reaches_listed in H; try reflexivity.
    simpl in H. intuition discriminate. }
  exact (conj H0 (conj H1 (conj H2 (conj H3 (conj H4
           (ordinal_strictly_monotone (E := HistoryEnv diamond)
              (parents_in diamond) (Py.slice_to 7) H0
              _ _ _ _ _ _ _ _ _ _ H1 H2 H3 H4)))))).
Defined.

Lemma ordinal_of_merge_base_witness :
  git_log_lists_ancestors (E := HistoryEnv diamond) (parents_in diamond)
    (Py.slice_to 7) /\
  result (get_pseudo_revision (E := HistoryEnv diamond) "/src" "origin/master")
    (checkout_at "4e5f6a7b8c") = Ok (2, "4e5f6a7b8c") /\
  result (get_pseudo_revision (E := HistoryEnv diamond) "/home/alice/src"
            "origin/master") second_clone = Ok (2, "4e5f6a7b8c") /\
  2 = 2.
Proof.
  assert (H0 : git_log_lists_ancestors (E := HistoryEnv diamond)
                 (parents_in diamond) (Py.slice_to 7))
    by (apply history_env_log; reflexivity).
  assert (H1 : result (get_pseudo_revision (E := HistoryEnv diamond) "/src"
                         "origin/master") (checkout_at "4e5f6a7b8c") =
               Ok (2, "4e5f6a7b8c")) by reflexivity.
  assert (H2 : result (get_pseudo_revision (E := HistoryEnv diamond)
                         "/home/alice/src" "origin/master") second_clone =
               Ok (2, "4e5f6a7b8c")) by reflexivity.
  exact (conj H0 (conj H1 (conj H2
           (ordinal_of_merge_base (E := HistoryEnv diamond)
              (parents_in diamond) (Py.slice_to 7) H0
              _ _ _ _ _ _ _ _ _ H1 H2)))).
Defined.
